(** * mcRiggingToolkit: a shallow embedding of the dialog's handlers and of
    the centroid/joint helpers, with the properties of the specification.

    Sources embedded here:
    - [main.py]: class [RiggingToolsUI] (naming, controller creation, rig
      template, colour handling);
    - [src/mcRiggingToolkit/core/centroid_joint_creation.py]:
      [selected_vertices_center], [create_joint] and
      [create_joint_at_cetered].

    The host application (scene graph, selection list, widgets) is not part
    of the repository.  It is modelled as explicit state: a finite map from
    node names to nodes, an ordered selection list, the dialog's fields and
    the log.  Python exceptions are values of [exn]; a computation that
    raises keeps the state it had reached. *)

From Stdlib Require Import Ascii String Floats QArith Qcanon DecimalString DecimalNat.
From stdpp Require Import gmap strings list fin_maps fin_sets.

Local Open Scope string_scope.

(** ** Python strings *)

(** A Python [str] is a sequence of Unicode code points.  It is held here as
    the bytes of its UTF-8 encoding, which is what a string literal of this
    file denotes.  Concatenation, equality, splitting at an ASCII character
    and the decimal formats act on the encoding as they act on the text;
    [str.isspace] and [str.strip] look at code points, so the encoding is
    cut into characters first. *)

(** The payload of a continuation byte [10xxxxxx]. *)
Definition utf8_cont (b : ascii) : option N :=
  let n := N_of_ascii b in
  if ((128 <=? n) && (n <? 192))%N then Some (n - 128)%N else None.

(** The code point of a two-, three- or four-byte sequence, when the bytes
    form one: a lead byte of the right range, continuation bytes, no
    overlong form, no surrogate, nothing above U+10FFFF. *)
Definition utf8_decode2 (a b : ascii) : option N :=
  let x := N_of_ascii a in
  if ((194 <=? x) && (x <? 224))%N
  then y ← utf8_cont b; Some ((x - 192) * 64 + y)%N
  else None.

Definition utf8_decode3 (a b c : ascii) : option N :=
  let x := N_of_ascii a in
  if ((224 <=? x) && (x <? 240))%N
  then y ← utf8_cont b; z ← utf8_cont c;
       let cp := ((x - 224) * 4096 + y * 64 + z)%N in
       if ((2048 <=? cp) && negb ((55296 <=? cp) && (cp <? 57344)))%N
       then Some cp else None
  else None.

Definition utf8_decode4 (a b c d : ascii) : option N :=
  let x := N_of_ascii a in
  if ((240 <=? x) && (x <? 245))%N
  then y ← utf8_cont b; z ← utf8_cont c; u ← utf8_cont d;
       let cp := ((x - 240) * 262144 + y * 4096 + z * 64 + u)%N in
       if ((65536 <=? cp) && (cp <? 1114112))%N then Some cp else None
  else None.

(** A byte on its own: an ASCII character, or a byte that starts no
    character.  No Python string encodes to the latter; it is kept as a
    character of its own, outside the code points of Unicode text. *)
Definition utf8_decode1 (a : ascii) : N :=
  let x := N_of_ascii a in
  if (x <? 128)%N then x else (56320 + x)%N.

(** One character of a string: its code point and the bytes that encode
    it. *)
Abbreviation PyChar := (N * string)%type.

(** The characters of a string, in order. *)
Fixpoint utf8_chars (s : string) : list PyChar :=
  match s with
  | EmptyString => []
  | String a r1 =>
      let single := (utf8_decode1 a, String a EmptyString) :: utf8_chars r1 in
      match r1 with
      | EmptyString => single
      | String b r2 =>
          match utf8_decode2 a b with
          | Some cp => (cp, String a (String b EmptyString)) :: utf8_chars r2
          | None =>
              match r2 with
              | EmptyString => single
              | String c r3 =>
                  match utf8_decode3 a b c with
                  | Some cp =>
                      (cp, String a (String b (String c EmptyString)))
                      :: utf8_chars r3
                  | None =>
                      match r3 with
                      | EmptyString => single
                      | String d r4 =>
                          match utf8_decode4 a b c d with
                          | Some cp =>
                              (cp, String a (String b (String c
                                     (String d EmptyString))))
                              :: utf8_chars r4
                          | None => single
                          end
                      end
                  end
              end
          end
      end
  end.

(** The text a list of characters stands for. *)
Fixpoint chars_text (cs : list PyChar) : string :=
  match cs with
  | [] => EmptyString
  | c :: rest => c.2 +:+ chars_text rest
  end.

(** [c.isspace()] for a code point [c]: the characters of general category
    [Zs] or of bidirectional class [WS], [B] or [S], which are U+0009 to
    U+000D, U+001C to U+0020, U+0085, U+00A0, U+1680, U+2000 to U+200A,
    U+2028, U+2029, U+202F, U+205F and U+3000. *)
Definition py_isspace (c : N) : bool :=
  (((9 <=? c) && (c <=? 13)) || ((28 <=? c) && (c <=? 32))
   || (c =? 133) || (c =? 160) || (c =? 5760)
   || ((8192 <=? c) && (c <=? 8202))
   || (c =? 8232) || (c =? 8233) || (c =? 8239) || (c =? 8287)
   || (c =? 12288))%N.

(** Whitespace removed from the front of a list of characters. *)
Fixpoint lstrip_chars (cs : list PyChar) : list PyChar :=
  match cs with
  | [] => []
  | c :: rest => if py_isspace c.1 then lstrip_chars rest else cs
  end.

(** Whitespace removed from its end. *)
Definition rstrip_chars (cs : list PyChar) : list PyChar :=
  rev (lstrip_chars (rev cs)).

(** [s.strip()] *)
Definition strip (s : string) : string :=
  chars_text (rstrip_chars (lstrip_chars (utf8_chars s))).

(** A string made of whitespace only (the empty string included). *)
Definition whitespace_only (s : string) : bool :=
  forallb (λ c : PyChar, py_isspace c.1) (utf8_chars s).

(** The UTF-8 encoding of a code point, for writing examples. *)
Definition utf8_encode (c : N) : string :=
  let byte (n : N) := ascii_of_N n in
  (if c <? 128 then String (byte c) EmptyString
   else if c <? 2048
   then String (byte (192 + c / 64))
          (String (byte (128 + c mod 64)) EmptyString)
   else if c <? 65536
   then String (byte (224 + c / 4096))
          (String (byte (128 + (c / 64) mod 64))
             (String (byte (128 + c mod 64)) EmptyString))
   else String (byte (240 + c / 262144))
          (String (byte (128 + (c / 4096) mod 64))
             (String (byte (128 + (c / 64) mod 64))
                (String (byte (128 + c mod 64)) EmptyString))))%N.

(** The code points a Python string can hold as text: the Unicode scalar
    values. *)
Definition unicode_scalar (c : N) : bool :=
  (((c <? 55296) || (57344 <=? c)) && (c <? 1114112))%N.

(** The text made of given code points. *)
Definition text_of (cs : list N) : string :=
  foldr (λ c acc, utf8_encode c +:+ acc) EmptyString cs.

(** [s.split(sep)] for a one-character separator: never the empty list. *)
Fixpoint split_char (sep : ascii) (s : string) : list string :=
  match s with
  | EmptyString => [EmptyString]
  | String c r =>
      if Ascii.eqb c sep then EmptyString :: split_char sep r
      else match split_char sep r with
           | h :: t => String c h :: t
           | [] => [String c EmptyString]
           end
  end.

(** [s.split(sep)[-1]] *)
Definition split_last (sep : ascii) (s : string) : string :=
  List.last (split_char sep s) EmptyString.

(** Decimal digits of a non-negative integer, as [str(i)] prints them. *)
Definition decimal (i : nat) : string :=
  NilEmpty.string_of_uint (Nat.to_uint i).

(** [f"{i:02d}"] and [f"{i:03d}"]: the digits of [i], padded on the left with
    zeros up to the given width; wider numbers are printed in full. *)
Fixpoint zero_pad (missing : nat) (d : Decimal.uint) : Decimal.uint :=
  match missing with
  | O => d
  | S k => Decimal.D0 (zero_pad k d)
  end.

Definition fmt_0wd (width i : nat) : string :=
  let d := Nat.to_uint i in
  NilEmpty.string_of_uint (zero_pad (width - Decimal.nb_digits d) d).

Definition fmt_02d : nat → string := fmt_0wd 2.
Definition fmt_03d : nat → string := fmt_0wd 3.

(** ** Exceptions and the state/exception monad *)

Inductive exn : Type :=
  | NameError (name : string)
  | TypeError (msg : string)
  | ValueError (msg : string)
  | IndexError (msg : string)
  | RuntimeError (msg : string).

(** Outcome of a call: a value, a raised exception, or a loop that was still
    running when its fuel ran out. *)
Inductive result (A : Type) : Type :=
  | Ok (a : A)
  | Raise (e : exn)
  | Hang.
Arguments Ok {A} a.
Arguments Raise {A} e.
Arguments Hang {A}.

Definition ST (S : Type) (A : Type) : Type := S → result A * S.

Definition st_ret {S A} (a : A) : ST S A := λ s, (Ok a, s).

Definition st_bind {S A B} (f : A → ST S B) (m : ST S A) : ST S B :=
  λ s, match m s with
       | (Ok a, s') => f a s'
       | (Raise e, s') => (Raise e, s')
       | (Hang, s') => (Hang, s')
       end.

#[global] Instance ST_ret {S} : MRet (ST S) := @st_ret S.
#[global] Instance ST_bind {S} : MBind (ST S) := @st_bind S.

Definition raise {S A} (e : exn) : ST S A := λ s, (Raise e, s).
Definition get_state {S} : ST S S := λ s, (Ok s, s).
Definition gets {S A} (f : S → A) : ST S A := λ s, (Ok (f s), s).
Definition modify {S} (f : S → S) : ST S unit := λ s, (Ok tt, f s).

(** [for x in xs: body(x)] *)
Fixpoint for_each {S A} (xs : list A) (body : A → ST S unit) : ST S unit :=
  match xs with
  | [] => mret tt
  | x :: rest => body x ;; for_each rest body
  end.

(** A module's global namespace: the names bound at module level, with the
    kind of object each is bound to. *)
Inductive PyObj : Type :=
  | PyModule
  | PyFunction
  | PyClass
  | PyInstance
  | PyInt (z : nat).

Fixpoint lookup_name (globals : list (string * PyObj)) (name : string)
  : option PyObj :=
  match globals with
  | [] => None
  | (n, o) :: rest => if String.eqb n name then Some o else lookup_name rest name
  end.

(** Reading a global name: [NameError] when it is not bound. *)
Definition load_global {S} (globals : list (string * PyObj)) (name : string)
  : ST S PyObj :=
  match lookup_name globals name with
  | Some o => mret o
  | None => raise (NameError name)
  end.

(** ** The host's scene graph and selection list *)

(** Modelled from the spec: the host's scene commands and queries
    ([cmds.group], [cmds.circle], [cmds.joint], [cmds.move], [cmds.ls],
    [cmds.objExists], [cmds.listRelatives], [cmds.setAttr], the selection
    list and [MFnTransform]) are an external API, not code of the repository.
    They are modelled as the specification's sections 3 and 6 describe them:
    groups, curves and joints are nodes identified by name; a group can nest
    children and be placed under the world; the selection is an ordered list
    owned by the host.  On top of that the model fixes three points the
    specification leaves to the host: node names are unique in the scene; a
    new node asked for under a name that is in use gets that name with the
    first free counter 1, 2, ... appended; a command that creates a node
    makes it the active selection. *)

(** A world-space translation or an RGB colour: three doubles. *)
Definition Vec3 : Type := float * float * float.

Definition origin : Vec3 := (0%float, 0%float, 0%float).

Inductive NodeType : Type := transform | joint | nurbsCurve.

#[global] Instance NodeType_eq_dec : EqDecision NodeType.
Proof. solve_decision. Defined.

Record Node : Type := mkNode {
  nodeType : NodeType;
  parent : option string;        (* [None]: a child of the world *)
  translation : Vec3;            (* world space *)
  overrideEnabled : bool;
  overrideRGBColors : bool;
  overrideColorRGB : Vec3
}.

Definition new_node (t : NodeType) (p : option string) : Node :=
  mkNode t p origin false false origin.

Definition set_parent (p : option string) (n : Node) : Node :=
  mkNode (nodeType n) p (translation n)
         (overrideEnabled n) (overrideRGBColors n) (overrideColorRGB n).

Definition set_translation (v : Vec3) (n : Node) : Node :=
  mkNode (nodeType n) (parent n) v
         (overrideEnabled n) (overrideRGBColors n) (overrideColorRGB n).

Definition set_overrideEnabled (b : bool) (n : Node) : Node :=
  mkNode (nodeType n) (parent n) (translation n)
         b (overrideRGBColors n) (overrideColorRGB n).

Definition set_overrideRGBColors (b : bool) (n : Node) : Node :=
  mkNode (nodeType n) (parent n) (translation n)
         (overrideEnabled n) b (overrideColorRGB n).

Definition set_overrideColorRGB (c : Vec3) (n : Node) : Node :=
  mkNode (nodeType n) (parent n) (translation n)
         (overrideEnabled n) (overrideRGBColors n) c.

(** The scene: node names are unique, every node has at most one parent. *)
Abbreviation Scene := (gmap string Node).

(** An item of a selection list: a DAG path, or something that is not a DAG
    object (a shader, a plug), for which [getDagPath] raises. *)
Inductive SelItem : Type :=
  | DagItem (fullPathName : string)
  | NonDagItem (name : string).

Record Host : Type := mkHost {
  scene : Scene;
  activeSelection : list SelItem
}.

(** [cmds.objExists(name)] *)
Definition objExists (s : Scene) (name : string) : bool :=
  match s !! name with Some _ => true | None => false end.

(** The children of a node, as a set of names. *)
Definition children (s : Scene) (p : string) : gset string :=
  dom (filter (λ kv, parent kv.2 = Some p) s).

(** Every node that names a parent names a node of the scene. *)
Definition scene_wf (s : Scene) : Prop :=
  ∀ n nd p, s !! n = Some nd → parent nd = Some p → is_Some (s !! p).

(** The name the host gives to a new node: the requested one when it is
    unused, otherwise the requested one followed by the first counter 1, 2,
    ... that makes it unused.  With [size s] names in use, one of the first
    [size s + 1] counters is free. *)
Fixpoint host_name_loop (s : Scene) (name : string) (fuel k : nat) : string :=
  match fuel with
  | O => name +:+ decimal k
  | S fuel' =>
      if objExists s (name +:+ decimal k)
      then host_name_loop s name fuel' (S k)
      else name +:+ decimal k
  end.

Definition host_name (s : Scene) (name : string) : string :=
  if objExists s name then host_name_loop s name (size s) 1 else name.

(** The parent shared by all of [objs], the world otherwise. *)
Definition common_parent (s : Scene) (objs : list string) : option string :=
  match objs with
  | [] => None
  | o :: rest =>
      let p := s !! o ≫= parent in
      if forallb (λ o', bool_decide ((s !! o' ≫= parent) = p)) rest
      then p else None
  end.

(** [cmds.group(objects, name=..., empty=..., world=...)]: a new transform;
    unless [empty], [objects] become its children; with [world] it is placed
    under the world, otherwise under the parent its objects share.  The new
    group becomes the active selection.  Returns the group's name. *)
Definition cmds_group (objects : list string) (empty world : bool)
    (name : string) : ST Host string :=
  λ h,
    let s := scene h in
    let name' := host_name s name in
    let members := if empty then [] else objects in
    let p := if world then None else common_parent s members in
    let s1 := <[name' := new_node transform p]> s in
    let s2 := foldr (λ c acc, alter (set_parent (Some name')) c acc) s1 members in
    (Ok name', mkHost s2 [DagItem name']).

(** [cmds.circle(name=...)]: a transform under the world with a NURBS-curve
    shape below it; the transform becomes the active selection.  Of the list
    the command returns, the transform's name is kept (the other element is
    the construction-history node, which is no DAG object). *)
Definition cmds_circle (name : string) : ST Host string :=
  λ h,
    let s := scene h in
    let name' := host_name s name in
    let s1 := <[name' := new_node transform None]> s in
    let shape := host_name s1 (name' +:+ "Shape") in
    let s2 := <[shape := new_node nurbsCurve (Some name')]> s1 in
    (Ok name', mkHost s2 [DagItem name']).

(** [cmds.listRelatives(obj, type="nurbsCurve", fullPath=True)]: [None] when
    nothing matches. *)
Definition cmds_listRelatives_nurbsCurve (s : Scene) (obj : string)
  : option (list string) :=
  let shapes :=
    elements (dom (filter (λ kv, nodeType kv.2 = nurbsCurve
                                 ∧ parent kv.2 = Some obj) s)) in
  match shapes with
  | [] => None
  | _ => Some shapes
  end.

Definition update_node (f : Node → Node) (name : string) : ST Host unit :=
  modify (λ h, mkHost (alter f name (scene h)) (activeSelection h)).

(** [cmds.ls(name, type="joint")] *)
Definition cmds_ls_joint (s : Scene) (name : string) : list string :=
  match s !! name with
  | Some nd => if decide (nodeType nd = joint) then [name] else []
  | None => []
  end.

(** [cmds.joint(name=...)]: a new joint, which becomes the selection. *)
Definition cmds_joint (name : string) : ST Host string :=
  λ h,
    let s := scene h in
    let name' := host_name s name in
    (Ok name', mkHost (<[name' := new_node joint None]> s) [DagItem name']).

(** [cmds.move(x, y, z, obj)] *)
Definition cmds_move (x y z : float) (obj : string) : ST Host unit :=
  update_node (set_translation (x, y, z)) obj.

(** [om.MGlobal.getSelectionListByName(name)] followed by [getDagPath(0)]:
    the node a name or a [|]-separated path denotes; raises when there is
    none. *)
Definition resolve_dag (name : string) : ST Host string :=
  λ h,
    let short := split_last "|"%char name in
    if objExists (scene h) short then (Ok short, h)
    else (Raise (RuntimeError "(kInvalidParameter): Object does not exist"), h).

(** ** main.py: the dialog *)

(** What a [QColor] answers to the calls the dialog makes on it. *)
Record QColor : Type := mkQColor {
  isValid : bool;
  redF : float;
  greenF : float;
  blueF : float;
  color_name : string            (* [color.name()], as [#rrggbb] *)
}.

(** [QColor("red")], [QColor("blue")], [QColor("yellow")]; an unknown name
    gives an invalid colour. *)
Definition QColor_of_name (name : string) : QColor :=
  if String.eqb name "red" then mkQColor true 1 0 0 "#ff0000"
  else if String.eqb name "blue" then mkQColor true 0 0 1 "#0000ff"
  else if String.eqb name "yellow" then mkQColor true 1 1 0 "#ffff00"
  else mkQColor false 0 0 0 "#000000".

(** The fields of [RiggingToolsUI] the handlers read or write. *)
Record Dialog : Type := mkDialog {
  ctrl_color : option Vec3;
  ctrl_custom_name_checkbox : bool;      (* [isChecked()] *)
  ctrl_name_field : string;              (* [text()] *)
  rig_temp_name_field : string;          (* [text()] *)
  color_picked_btn : string              (* the swatch's style sheet *)
}.

Inductive LogRecord : Type :=
  | LogWarning (msg : string)
  | LogInfo (msg : string)
  | LogDebugStoredColor (c : Vec3).      (* [f"Stored button color:{c}"] *)

Record World : Type := mkWorld {
  ui : Dialog;
  host : Host;
  log : list LogRecord
}.

Module RiggingToolsUI.

  (** Names bound in main.py's module namespace when a handler runs: the
      imports of lines 1-5 and the module's own definitions. *)
Definition module_globals : list (string * PyObj) :=
    [ ("cmds", PyModule); ("OpenMayaUI", PyModule); ("om", PyModule);
      ("QtWidgets", PyModule); ("QtCore", PyModule);
      ("wrapInstance", PyFunction); ("logging", PyModule);
      ("LOG", PyInstance); ("get_maya_main_window", PyFunction);
      ("show_ui", PyFunction); ("RiggingToolsUI", PyClass);
      ("simple_button_ui", PyInstance) ].

  (** Names bound when the class body is executed: the class itself and the
      dialog instance do not exist yet. *)
Definition globals_at_class_body : list (string * PyObj) :=
    take 10 module_globals.

  (** The non-builtin names in the annotations of each method, in the order
      of the class body.  Without deferred annotations, [def] evaluates
      them. *)
Definition method_annotations : list (string * list string) :=
    [ ("__init__", []); ("build_ui", []); ("create_connections", []);
      ("create_rig_template", []); ("set_color", ["QtGui"]);
      ("get_picker_color", []); ("match_objects_space", []);
      ("get_selected_object_name", []); ("unique_ctrl_name", []);
      ("create_curve_offset_group", []); ("set_controller_color", []);
      ("create_blank_controller", []) ].

  (** Executing the class body under eager annotation evaluation: the names
      of the methods defined, or the first name that is not bound. *)
Fixpoint exec_class_body (methods : list (string * list string))
    : result (list string) :=
    match methods with
    | [] => Ok []
    | (m, names) :: rest =>
        match List.find (λ n, negb (bool_decide
                 (is_Some (lookup_name globals_at_class_body n)))) names with
        | Some missing => Raise (NameError missing)
        | None =>
            match exec_class_body rest with
            | Ok ms => Ok (m :: ms)
            | r => r
            end
        end
    end.

  (** [__init__] after [build_ui]: empty fields, unchecked box, grey swatch,
      no colour. *)
Definition init : Dialog :=
    mkDialog None false "" "" "background-color: gray; border: 1px solid black;".

Definition lift_host {A} (m : ST Host A) : ST World A :=
    λ w, let (r, h) := m (host w) in (r, mkWorld (ui w) h (log w)).

Definition LOG (r : LogRecord) : ST World unit :=
    modify (λ w, mkWorld (ui w) (host w) (log w ++ [r])).

  (** main.py 137-153 *)
Definition create_rig_template : ST World unit :=
    rig_name ← gets (λ w, strip (rig_temp_name_field (ui w)));
    if String.eqb rig_name ""
    then LOG (LogWarning "No rig name has been specified.")
    else
      prx_group ← lift_host (cmds_group [] true true "prx_grp");
      rnd_group ← lift_host (cmds_group [] true true "render_grp");
      geo_group ← lift_host (cmds_group [prx_group; rnd_group] false true "geo_grp");
      anim_group ← lift_host (cmds_group [] true true "anim_grp");
      export_group ← lift_host (cmds_group [] true true "export_grp");
      joint_group ← lift_host (cmds_group [anim_group; export_group] false true "jnt_grp");
      ctrl_group ← lift_host (cmds_group [] true true "ctrl_grp");
      lift_host (cmds_group [geo_group; joint_group; ctrl_group] false false rig_name);;
      mret tt.

  (** main.py 155-165 *)
Definition set_color (color : QColor) : ST World unit :=
    let c := (redF color, greenF color, blueF color) in
    modify (λ w, mkWorld (mkDialog (Some c)
                            (ctrl_custom_name_checkbox (ui w))
                            (ctrl_name_field (ui w))
                            (rig_temp_name_field (ui w))
                            (color_picked_btn (ui w)))
                         (host w) (log w));;
    LOG (LogDebugStoredColor c);;
    modify (λ w, mkWorld (mkDialog (ctrl_color (ui w))
                            (ctrl_custom_name_checkbox (ui w))
                            (ctrl_name_field (ui w))
                            (rig_temp_name_field (ui w))
                            ("background-color: " +:+ color_name color))
                         (host w) (log w)).

  (** main.py 167-173; [picked] is what [QColorDialog.getColor()] returns. *)
Definition get_picker_color (picked : QColor) : ST World unit :=
    if isValid picked then set_color picked else mret tt.

  (** The three preset buttons of [build_ui]. *)
Inductive PresetButton : Type := red_btn | blue_btn | yellow_btn.

Definition preset_color (b : PresetButton) : string :=
    match b with red_btn => "red" | blue_btn => "blue" | yellow_btn => "yellow" end.

  (** main.py 129-131: [lambda: self.set_color(QtGui.QColor("..."))].  The
      argument is evaluated first, which reads the global [QtGui]. *)
Definition preset_clicked (b : PresetButton) : ST World unit :=
    load_global module_globals "QtGui";;
    set_color (QColor_of_name (preset_color b)).

  (** main.py 175-196 *)
Definition match_objects_space (target_object move_object : string)
    : ST World unit :=
    dag_path ← lift_host (resolve_dag target_object);
    pos ← gets (λ w, from_option translation origin (scene (host w) !! dag_path));
    target_dag ← lift_host (resolve_dag move_object);
    lift_host (update_node (set_translation pos) target_dag).

  (** main.py 198-209.  The generator reads the selection when it is first
      advanced, before the loop body has run, and iterates over that copy. *)
Definition get_selected_object_name : ST World (list string) :=
    gets (λ w, omap (λ it, match it with
                           | DagItem p => Some p
                           | NonDagItem _ => None
                           end) (activeSelection (host w))).

  (** main.py 226-231: the [while True] loop, [fuel] iterations of it. *)
Fixpoint unique_ctrl_loop (s : Scene) (base_name : string) (fuel i : nat)
    : option string :=
    match fuel with
    | O => None
    | S fuel' =>
        let name := base_name +:+ "_" +:+ fmt_02d i +:+ "_ctrl" in
        if negb (objExists s name) then Some name
        else unique_ctrl_loop s base_name fuel' (S i)
    end.

  (** main.py 211-231.  The loop is given one iteration more than there are
      nodes in the scene. *)
Definition unique_ctrl_name (s : Scene) (base_name : string) : option string :=
    let name := base_name +:+ "_ctrl" in
    if negb (objExists s name) then Some name
    else unique_ctrl_loop s base_name (S (size s)) 1.

Definition call_unique_ctrl_name (base_name : string) : ST World string :=
    λ w, match unique_ctrl_name (scene (host w)) base_name with
         | Some name => (Ok name, w)
         | None => (Hang, w)
         end.

  (** main.py 250-261 *)
Definition set_controller_color (controller : string) : ST World unit :=
    c ← gets (λ w, ctrl_color (ui w));
    match c with
    | None => raise (TypeError "cannot unpack non-iterable NoneType object")
    | Some rgb =>
        shapes ← gets (λ w, cmds_listRelatives_nurbsCurve (scene (host w)) controller);
        match shapes with
        | None => raise (TypeError "'NoneType' object is not iterable")
        | Some shapes =>
            for_each shapes (λ shape,
              lift_host (update_node (set_overrideEnabled true) shape);;
              lift_host (update_node (set_overrideRGBColors true) shape);;
              lift_host (update_node (set_overrideColorRGB rgb) shape))
        end
    end.

  (** main.py 233-248 *)
Definition create_curve_offset_group (controller_name : string)
    : ST World unit :=
    let short_controller_name := split_last "|"%char controller_name in
    short_controller_name ← call_unique_ctrl_name short_controller_name;
    controller ← lift_host (cmds_circle short_controller_name);
    offset_group ← lift_host (cmds_group [controller] false false
                                (short_controller_name +:+ "_offset"));
    checked ← gets (λ w, ctrl_custom_name_checkbox (ui w));
    (if negb checked
     then match_objects_space controller_name offset_group
     else mret tt);;
    set_controller_color controller.

  (** main.py 263-282.  The blank-name branch returns early; the other two
      paths go on to lines 280-282. *)
Definition create_blank_controller : ST World unit :=
    orig_sel ← gets (λ w, activeSelection (host w));
    let restore_and_report : ST World unit :=
      lift_host (modify (λ h, mkHost (scene h) orig_sel));;
      LOG (LogInfo "Finished creating ctrls") in
    checked ← gets (λ w, ctrl_custom_name_checkbox (ui w));
    if (checked : bool)
    then
      button_name ← gets (λ w, strip (ctrl_name_field (ui w)));
      if String.eqb button_name ""
      then LOG (LogWarning "Button Controler name cannot be empty.")
      else create_curve_offset_group button_name;; restore_and_report
    else
      objs ← get_selected_object_name;
      for_each objs create_curve_offset_group;;
      restore_and_report.

End RiggingToolsUI.

(** ** centroid_joint_creation.py *)

(** The arithmetic of the host's point type: the zero coordinate of
    [MPoint()], the addition behind [+=] and the division by a count behind
    [/=].  The host computes in doubles; the exact rationals are the
    arithmetic the specification's "mean" refers to. *)
Class Scalar (F : Type) : Type := {
  s_zero : F;
  s_add : F → F → F;
  s_div_count : F → nat → F
}.

(** IEEE 754 binary64, as the host has it. *)
#[global] Instance double_scalar : Scalar float := {|
  s_zero := 0%float;
  s_add := PrimFloat.add;
  s_div_count := λ x n, PrimFloat.div x (PrimFloat.of_uint63 (Uint63.of_Z (Z.of_nat n)))
|}.

(** Exact rational arithmetic. *)
#[global] Instance exact_scalar : Scalar Qc := {|
  s_zero := Q2Qc 0;
  s_add := Qcplus;
  s_div_count := λ x n, Qcdiv x (Q2Qc (inject_Z (Z.of_nat n)))
|}.

Module CentroidJointCreation.

Record MPoint (F : Type) : Type := mkPoint { px : F; py : F; pz : F }.
Arguments mkPoint {F} px py pz.
Arguments px {F}.
Arguments py {F}.
Arguments pz {F}.

  (** The component kinds [apiType()] distinguishes here; [kInvalid] is the
      null component of an item selected as a whole object. *)
Inductive MFn : Type :=
    | kInvalid
    | kMeshVertComponent
    | kMeshEdgeComponent
    | kMeshPolygonComponent
    | kCurveCVComponent.

#[global] Instance MFn_eq_dec : EqDecision MFn.
  Proof. solve_decision. Defined.

Record Component : Type := mkComponent {
    apiType : MFn;
    getElements : list nat         (* the indices of the selected elements *)
  }.

  (** An item of the selection list, by what [sel.getComponent(i)] does with
      it: the call returns a DAG path and a component (the null component
      for an object selected as a whole), or it raises, as the host does for
      an item that is neither a DAG path nor a component (a shader, a set).
      The exception is the host's. *)
Inductive SelEntry : Type :=
    | Returns (dag_path : string) (component : Component)
    | Raises (e : exn).

Section Centroid.
Context {F : Type} `{Scalar F}.

    (** [mesh_fn.getPoint(vtx_id, om.MSpace.kWorld)] for the mesh at a DAG
        path: the host's geometry. *)
Variable getPoint : string → nat → MPoint F.

    (** [center += p] *)
Definition point_add (center p : MPoint F) : MPoint F :=
      mkPoint (s_add (px center) (px p)) (s_add (py center) (py p))
              (s_add (pz center) (pz p)).

    (** [center /= n] *)
Definition point_div (center : MPoint F) (n : nat) : MPoint F :=
      mkPoint (s_div_count (px center) n) (s_div_count (py center) n)
              (s_div_count (pz center) n).

    (** Lines 16-30: the points of the selected mesh vertices, in selection
        order.  Line 19 has no handler: the loop ends at the first item for
        which [getComponent] raises, with that exception. *)
Fixpoint collect_points (sel : list SelEntry) : result (list (MPoint F)) :=
      match sel with
      | [] => Ok []
      | Raises e :: _ => Raise e
      | Returns dag_path component :: rest =>
          if decide (apiType component ≠ kMeshVertComponent)
          then collect_points rest
          else
            match collect_points rest with
            | Ok points =>
                Ok (map (getPoint dag_path) (getElements component) ++ points)%list
            | failed => failed
            end
      end.

    (** Lines 35-42: the average of a list of points. *)
Definition average (points : list (MPoint F)) : MPoint F :=
      let center := fold_left point_add points (mkPoint s_zero s_zero s_zero) in
      point_div center (length points).

    (** centroid_joint_creation.py 6-42 *)
Definition selected_vertices_center (sel : list SelEntry)
      : result (MPoint F) :=
      if (length sel =? 0)%nat
      then Raise (RuntimeError "We did not find anything selected.")
      else
        match collect_points sel with
        | Ok [] => Raise (RuntimeError "No mesh vertices selected currently.")
        | Ok points => Ok (average points)
        | Raise e => Raise e
        | Hang => Hang
        end.

    (** The specification's centroid: for each coordinate, the sum over the
        points divided by their number. *)
Definition coordinate_sum (xs : list F) : F := fold_left s_add xs s_zero.

Definition mean_of (coord : MPoint F → F) (points : list (MPoint F)) : F :=
      s_div_count (coordinate_sum (map coord points)) (length points).

Definition centroid_spec (points : list (MPoint F)) : MPoint F :=
      mkPoint (mean_of px points) (mean_of py points) (mean_of pz points).

End Centroid.

  (** Names bound in the module's namespace. *)
Definition module_globals : list (string * PyObj) :=
    [ ("om", PyModule); ("cmds", PyModule); ("re", PyModule);
      ("selected_vertices_center", PyFunction); ("create_joint", PyFunction);
      ("create_joint_at_cetered", PyFunction) ].

  (** centroid_joint_creation.py 45-72.  [name.split(sufix)] raises on an
      empty separator; its result is overwritten on the next line, which
      reads [value], a name that is neither a parameter, a local nor a
      global. *)
Definition create_joint (name sufix : string) (position : list float)
    : ST Host string :=
    find_dup_joints ← gets (λ h, cmds_ls_joint (scene h) name);
    joint_name ←
      match find_dup_joints with
      | _ :: _ =>
          (if String.eqb sufix "" then raise (ValueError "empty separator")
           else mret tt);;
          value ← load_global module_globals "value";
          match value with
          | PyInt v => mret (name +:+ fmt_03d v +:+ "_" +:+ sufix)
          | _ => raise (ValueError "Unknown format code 'd'")
          end
      | [] => mret (name +:+ "_" +:+ sufix)
      end;
    joint_created ← cmds_joint joint_name;
    match position with
    | [] => mret joint_created
    | x :: y :: z :: _ => cmds_move x y z joint_created;; mret joint_created
    | _ => raise (IndexError "list index out of range")
    end.

  (** centroid_joint_creation.py 75-80.  The selection is read through
      [getComponent], as in [selected_vertices_center]; [list(center_point)]
      has the point's four coordinates, of which the fourth, [w], is the
      host's homogeneous coordinate. *)
Definition create_joint_at_cetered (getPoint : string → nat → MPoint float)
      (sel : list SelEntry) (w : float) : ST Host unit :=
    match selected_vertices_center getPoint sel with
    | Ok center_point =>
        create_joint "test" "jnt"
          [px center_point; py center_point; pz center_point; w];;
        mret tt
    | Raise e => raise e
    | Hang => λ h, (Hang, h)
    end.

End CentroidJointCreation.

(** ** Notions the properties are stated with, and the inputs of the
    examples *)

(** [f"{base_name}_{i:02d}_ctrl"] *)
Definition numbered_ctrl_name (base_name : string) (i : nat) : string :=
  base_name +:+ "_" +:+ fmt_02d i +:+ "_ctrl".

(** A scene of transforms under the world with the given names. *)
Definition scene_of_names (names : list string) : Scene :=
  list_to_map (map (λ n, (n, new_node transform None)) names).

(** A scene in which [arm_ctrl] and [arm_01_ctrl] ... [arm_99_ctrl] all
    exist. *)
Definition crowded_scene : Scene :=
  scene_of_names ("arm_ctrl" :: map (numbered_ctrl_name "arm") (seq 1 99)).

(** A scene with [arm_ctrl] and [arm_01_ctrl]. *)
Definition two_arms_scene : Scene :=
  scene_of_names ["arm_ctrl"; "arm_01_ctrl"].

(** The seven groups [create_rig_template] always asks for; the root, named
    by the user, comes on top of them. *)
Definition template_groups : list string :=
  ["prx_grp"; "render_grp"; "geo_grp"; "anim_grp"; "export_grp"; "jnt_grp";
   "ctrl_grp"].

(** The scene [create_rig_template] is expected to leave: seven new
    transforms, nested as the specification says. *)
Definition rig_template_scene (s : Scene) (rig_name : string) : Scene :=
  <[rig_name := new_node transform None]>
  (<["geo_grp" := new_node transform (Some rig_name)]>
  (<["jnt_grp" := new_node transform (Some rig_name)]>
  (<["ctrl_grp" := new_node transform (Some rig_name)]>
  (<["prx_grp" := new_node transform (Some "geo_grp")]>
  (<["render_grp" := new_node transform (Some "geo_grp")]>
  (<["anim_grp" := new_node transform (Some "jnt_grp")]>
  (<["export_grp" := new_node transform (Some "jnt_grp")]> s))))))).

(** A freshly opened dialog over a given host state, with the rig-name
    field filled in. *)
Definition world_with_rig_name (h : Host) (text : string) : World :=
  mkWorld (mkDialog None false "" text
             "background-color: gray; border: 1px solid black;") h [].

Definition empty_host : Host := mkHost ∅ [].

Definition two_arms_host : Host := mkHost two_arms_scene [DagItem "|arm_ctrl"].

(** A freshly opened dialog over an empty scene. *)
Definition fresh_world : World := mkWorld RiggingToolsUI.init empty_host [].

(** The same, with "Create Custom Name" ticked and [foo] typed in. *)
Definition fresh_custom_world : World :=
  mkWorld (mkDialog None true "foo" ""
             "background-color: gray; border: 1px solid black;")
          empty_host [].

(** A transform [a] with a joint [b] below it; both are selected, together
    with a shader; red has been chosen. *)
Definition two_selected_world : World :=
  mkWorld (mkDialog (Some (1, 0, 0)%float) false "" ""
             "background-color: #ff0000")
          (mkHost (<["a" := new_node transform None]>
                   (<["b" := new_node joint (Some "a")]> ∅))
                  [DagItem "|a"; NonDagItem "lambert1"; DagItem "|a|b"])
          [].

(** A scene that already holds a joint called [test]. *)
Definition joint_test_host : Host :=
  mkHost (<["test" := new_node joint None]> ∅) [].

(** Three vertices of a mesh, in doubles: far right, far left, and one unit
    from the origin. *)
Definition cube_point (dag_path : string) (vtx_id : nat)
  : CentroidJointCreation.MPoint float :=
  match vtx_id with
  | 0 => CentroidJointCreation.mkPoint 1e16%float 0%float 0%float
  | 1 => CentroidJointCreation.mkPoint (-1e16)%float 0%float 0%float
  | _ => CentroidJointCreation.mkPoint 1%float 0%float 0%float
  end.

(** Vertices with exact rational coordinates: vertex [i] sits at
    [(i, 0, 0)]. *)
Definition exact_point (dag_path : string) (vtx_id : nat)
  : CentroidJointCreation.MPoint Qc :=
  CentroidJointCreation.mkPoint (Q2Qc (inject_Z (Z.of_nat vtx_id)))
                                (Q2Qc 0) (Q2Qc 0).

(** The same three vertices of [pCube1], selected in two orders, and a
    selection with an edge and a whole object only. *)
Definition sel_012 : list CentroidJointCreation.SelEntry :=
  [CentroidJointCreation.Returns "pCube1"
     (CentroidJointCreation.mkComponent
        CentroidJointCreation.kMeshVertComponent [0; 1; 2])].

Definition sel_021 : list CentroidJointCreation.SelEntry :=
  [CentroidJointCreation.Returns "pCube1"
     (CentroidJointCreation.mkComponent
        CentroidJointCreation.kMeshVertComponent [0; 2; 1])].

Definition sel_no_vertex : list CentroidJointCreation.SelEntry :=
  [CentroidJointCreation.Returns "pCube1"
     (CentroidJointCreation.mkComponent
        CentroidJointCreation.kMeshEdgeComponent [3]);
   CentroidJointCreation.Returns "pSphere1"
     (CentroidJointCreation.mkComponent CentroidJointCreation.kInvalid [])].

(** What the host raises when [getComponent] is asked for the shader
    [lambert1], an item without a DAG path; the class is the one main.py 208
    expects of such items. *)
Definition shader_error : exn :=
  RuntimeError "(kInvalidParameter): Object is incompatible with this method".

(** The three vertices of [pCube1] selected together with the shader
    [lambert1]. *)
Definition sel_012_shader : list CentroidJointCreation.SelEntry :=
  sel_012 ++ [CentroidJointCreation.Raises shader_error].

(** A blank text that goes beyond ASCII: a space, an em space (U+2003), an
    ideographic space (U+3000), a tab, a no-break space (U+00A0) and a line
    separator (U+2028). *)
Definition wide_blank : string :=
  text_of [32; 8195; 12288; 9; 160; 8232]%N.

(** The names the host tries for a new node: the requested name, then the
    name with the counters 1, 2, ... *)
Definition host_candidate (name : string) (j : nat) : string :=
  match j with
  | O => name
  | S _ => name +:+ decimal j
  end.

(** Whether a character occurs in a string. *)
Fixpoint contains_char (sep : ascii) (s : string) : bool :=
  match s with
  | EmptyString => false
  | String c r => Ascii.eqb c sep || contains_char sep r
  end.

(** What lines 259-261 do to one shape node. *)
Definition paint (rgb : Vec3) (nd : Node) : Node :=
  set_overrideColorRGB rgb (set_overrideRGBColors true (set_overrideEnabled true nd)).

(** A NURBS-curve shape directly below [controller]. *)
Definition is_curve_of (controller : string) (nd : Node) : Prop :=
  nodeType nd = nurbsCurve ∧ parent nd = Some controller.

#[global] Instance is_curve_of_dec controller nd : Decision (is_curve_of controller nd).
Proof. unfold is_curve_of. apply _. Defined.

(** A controller [arm_ctrl] with its curve shape, beside an unrelated curve;
    red has been chosen. *)
Definition controller_world : World :=
  mkWorld (mkDialog (Some (1, 0, 0)%float) true "arm" ""
             "background-color: #ff0000")
          (mkHost (<["arm_ctrl" := new_node transform None]>
                   (<["arm_ctrlShape" := new_node nurbsCurve (Some "arm_ctrl")]>
                   (<["leg_ctrlShape" := new_node nurbsCurve (Some "leg_ctrl")]>
                   (<["leg_ctrl" := new_node transform None]> ∅))))
                  [DagItem "arm_ctrl"])
          [].

(** The scene a successful [create_curve_offset_group] is expected to leave:
    the circle under its offset group, its shape painted, the offset group
    under the world at position [pos]. *)
Definition controller_scene (s : Scene) (circle shape offset : string)
    (rgb pos : Vec3) : Scene :=
  <[circle := set_parent (Some offset) (new_node transform None)]>
  (<[shape := paint rgb (new_node nurbsCurve (Some circle))]>
  (<[offset := set_translation pos (new_node transform None)]> s)).

(** The paths of the DAG objects of a selection, in order: what
    [get_selected_object_name] yields. *)
Definition dag_paths (sel : list SelItem) : list string :=
  omap (λ it, match it with
              | DagItem p => Some p
              | NonDagItem _ => None
              end) sel.

(** What one controller made for the object at [path] looks like in the
    scene [s'], where [s] is the scene before: a circle under an offset
    group, with a shape of colour [rgb], none of the three in [s], the
    offset group where the object is. *)
Definition controller_for (s s' : Scene) (rgb : Vec3) (path : string) : Prop :=
  ∃ circle shape offset : string,
    s !! circle = None ∧ s !! shape = None ∧ s !! offset = None
    ∧ s' !! circle = Some (set_parent (Some offset) (new_node transform None))
    ∧ s' !! shape = Some (paint rgb (new_node nurbsCurve (Some circle)))
    ∧ s' !! offset
      = Some (set_translation
                (from_option translation origin (s !! split_last "|"%char path))
                (new_node transform None)).

(** The hierarchy of [create_rig_template] under the names the host gave to
    the eight groups. *)
Definition rig_hierarchy (s : Scene)
    (root geo jnt ctrl prx rnd anim exp : string) : Scene :=
  <[root := new_node transform None]>
  (<[geo := new_node transform (Some root)]>
  (<[jnt := new_node transform (Some root)]>
  (<[ctrl := new_node transform (Some root)]>
  (<[prx := new_node transform (Some geo)]>
  (<[rnd := new_node transform (Some geo)]>
  (<[anim := new_node transform (Some jnt)]>
  (<[exp := new_node transform (Some jnt)]> s))))))).


(** * Properties *)

Local Open Scope nat_scope.
Local Open Scope list_scope.

(** ** Strings and decimal formatting *)

Lemma append_length (a b : string) :
  String.length (a +:+ b) = (String.length a + String.length b)%nat.
Proof. induction a as [|c a IH]; simpl; [done | by rewrite IH]. Qed.

Lemma append_inv_tail (a b s : string) : a +:+ s = b +:+ s → a = b.
Proof.
  revert b. induction a as [|c a IH]; intros [|d b] Heq; simpl in *.
  - done.
  - apply (f_equal String.length) in Heq.
    rewrite !append_length in Heq. simpl in Heq. lia.
  - apply (f_equal String.length) in Heq.
    rewrite !append_length in Heq. simpl in Heq. lia.
  - injection Heq as -> Heq. f_equal. by apply IH.
Qed.

Lemma string_of_uint_inj (d e : Decimal.uint) :
  NilEmpty.string_of_uint d = NilEmpty.string_of_uint e → d = e.
Proof.
  intros Heq. apply (f_equal NilEmpty.uint_of_string) in Heq.
  rewrite !NilEmpty.usu in Heq. by injection Heq.
Qed.

Lemma of_uint_zero_pad (k : nat) (d : Decimal.uint) :
  Nat.of_uint (zero_pad k d) = Nat.of_uint d.
Proof. induction k as [|k IH]; simpl; [done | exact IH]. Qed.

Lemma fmt_0wd_inj (width : nat) : Inj (=) (=) (fmt_0wd width).
Proof.
  intros i j Heq. unfold fmt_0wd in Heq.
  apply string_of_uint_inj in Heq.
  apply (f_equal Nat.of_uint) in Heq.
  by rewrite !of_uint_zero_pad, !Unsigned.of_to in Heq.
Qed.

Lemma decimal_inj : Inj (=) (=) decimal.
Proof.
  intros i j Heq. apply string_of_uint_inj in Heq.
  apply (f_equal Nat.of_uint) in Heq. by rewrite !Unsigned.of_to in Heq.
Qed.

Lemma numbered_ctrl_name_inj (base_name : string) :
  Inj (=) (=) (numbered_ctrl_name base_name).
Proof.
  intros i j Heq. unfold numbered_ctrl_name in Heq.
  do 2 apply String.app_inj in Heq.
  apply append_inv_tail in Heq. by apply (fmt_0wd_inj 2).
Qed.


(** ** Naming: a scene cannot hold more names than it has nodes *)

Lemma objExists_true (s : Scene) (name : string) :
  objExists s name = true ↔ name ∈ dom s.
Proof.
  unfold objExists. rewrite elem_of_dom.
  destruct (s !! name); split; intros Hx; try done; by destruct Hx.
Qed.

Lemma objExists_false (s : Scene) (name : string) :
  objExists s name = false ↔ s !! name = None.
Proof. unfold objExists. by destruct (s !! name). Qed.

Lemma names_not_exhausted (s : Scene) (mk : nat → string) (start : nat) :
  Inj (=) (=) mk →
  ¬ (∀ j, start ≤ j < start + S (size s) → objExists s (mk j) = true).
Proof.
  intros Hinj Hall.
  assert (Hsub : list_to_set (mk <$> seq start (S (size s))) ⊆ dom s).
  { intros n Hn. apply elem_of_list_to_set, list_elem_of_fmap in Hn.
    destruct Hn as (j & -> & Hj). apply elem_of_seq in Hj.
    apply objExists_true, Hall. lia. }
  apply subseteq_size in Hsub.
  rewrite size_list_to_set in Hsub by (apply NoDup_fmap_2; [done | apply NoDup_seq]).
  rewrite length_fmap, length_seq, size_dom in Hsub. lia.
Qed.

(** What the loop of [unique_ctrl_name] returns after [fuel] iterations from
    counter [i]: the first free numbered name, or nothing when all the names
    it tried exist. *)
Lemma unique_ctrl_loop_result (s : Scene) (base_name : string) (fuel i : nat) :
  (∃ k, i ≤ k < i + fuel
        ∧ RiggingToolsUI.unique_ctrl_loop s base_name fuel i
          = Some (numbered_ctrl_name base_name k)
        ∧ objExists s (numbered_ctrl_name base_name k) = false
        ∧ ∀ j, i ≤ j < k → objExists s (numbered_ctrl_name base_name j) = true)
  ∨ (RiggingToolsUI.unique_ctrl_loop s base_name fuel i = None
     ∧ ∀ j, i ≤ j < i + fuel → objExists s (numbered_ctrl_name base_name j) = true).
Proof.
  revert i. induction fuel as [|fuel IH]; intros i.
  - right. split; [done | intros j Hj; lia].
  - simpl. fold (numbered_ctrl_name base_name i).
    destruct (objExists s (numbered_ctrl_name base_name i)) eqn:Hi; simpl.
    + destruct (IH (S i)) as [(k & Hk & Hres & Hfree & Hbelow) | [Hnone Hall]].
      * left. exists k. repeat split; [lia | lia | done | done |].
        intros j Hj. destruct (decide (j = i)) as [-> | Hne]; [done |].
        apply Hbelow. lia.
      * right. split; [done |]. intros j Hj.
        destruct (decide (j = i)) as [-> | Hne]; [done |]. apply Hall. lia.
    + left. exists i. repeat split; [lia | lia | done |]. intros j Hj. lia.
Qed.

Lemma fmt_02d_two_digits (i : nat) : i < 100 → String.length (fmt_02d i) = 2.
Proof.
  intros Hi.
  assert (Hall : forallb (λ j, String.length (fmt_02d j) =? 2) (seq 0 100) = true)
    by (vm_compute; reflexivity).
  rewrite forallb_forall in Hall.
  apply Nat.eqb_eq, Hall, in_seq. lia.
Qed.

(** C1 (as amended): when [{base}_ctrl] is unused, [unique_ctrl_name]
    returns it; otherwise it returns [{base}_{i:02d}_ctrl] for the smallest
    counter [i >= 1] whose name is unused, a counter printed with two digits
    as long as it is below 100 and in full from 100 on.  The search always
    ends, a scene having finitely many names. *)
Theorem unique_ctrl_name_first_free (s : Scene) (base_name : string) :
  (objExists s (base_name +:+ "_ctrl") = false →
   RiggingToolsUI.unique_ctrl_name s base_name = Some (base_name +:+ "_ctrl"))
  ∧ (objExists s (base_name +:+ "_ctrl") = true →
     ∃ i, 1 ≤ i
          ∧ RiggingToolsUI.unique_ctrl_name s base_name
            = Some (numbered_ctrl_name base_name i)
          ∧ objExists s (numbered_ctrl_name base_name i) = false
          ∧ (∀ j, 1 ≤ j < i → objExists s (numbered_ctrl_name base_name j) = true)
          ∧ (i < 100 → String.length (fmt_02d i) = 2)).
Proof.
  unfold RiggingToolsUI.unique_ctrl_name. split; intros Hbase; rewrite Hbase; simpl.
  - done.
  - change (match size s with
            | O => None
            | S fuel' => RiggingToolsUI.unique_ctrl_loop s base_name fuel' 2
            end)
      with (RiggingToolsUI.unique_ctrl_loop s base_name (size s) 2).
    fold (numbered_ctrl_name base_name 1).
    pose proof (unique_ctrl_loop_result s base_name (S (size s)) 1) as Hloop.
    simpl in Hloop. fold (numbered_ctrl_name base_name 1) in Hloop.
    destruct Hloop as [(k & Hk & Hres & Hfree & Hbelow) | [_ Hall]].
    + exists k. repeat split; try done; try lia. apply fmt_02d_two_digits.
    + exfalso. apply (names_not_exhausted s (numbered_ctrl_name base_name) 1);
        [apply numbered_ctrl_name_inj | done].
Qed.

Lemma unique_ctrl_name_first_free_witness :
  RiggingToolsUI.unique_ctrl_name ∅ "arm" = Some "arm_ctrl"
  ∧ ∃ i, 1 ≤ i
         ∧ RiggingToolsUI.unique_ctrl_name two_arms_scene "arm"
           = Some (numbered_ctrl_name "arm" i)
         ∧ objExists two_arms_scene (numbered_ctrl_name "arm" i) = false
         ∧ (∀ j, 1 ≤ j < i → objExists two_arms_scene (numbered_ctrl_name "arm" j) = true)
         ∧ (i < 100 → String.length (fmt_02d i) = 2).
Proof.
  split.
  - apply (proj1 (unique_ctrl_name_first_free ∅ "arm")). reflexivity.
  - apply (proj2 (unique_ctrl_name_first_free two_arms_scene "arm")).
    vm_compute. reflexivity.
Defined.

(** C1 (as stated) fails once the two-digit counters are used up: with
    [arm_ctrl] and [arm_01_ctrl] ... [arm_99_ctrl] in the scene the name
    returned is [arm_100_ctrl], which no two-digit counter produces. *)
Lemma unique_ctrl_name_third_digit :
  objExists crowded_scene "arm_ctrl" = true
  ∧ RiggingToolsUI.unique_ctrl_name crowded_scene "arm" = Some "arm_100_ctrl"
  ∧ ¬ ∃ nn, 1 ≤ nn ≤ 99
            ∧ RiggingToolsUI.unique_ctrl_name crowded_scene "arm"
              = Some (numbered_ctrl_name "arm" nn).
Proof.
  assert (Hres : RiggingToolsUI.unique_ctrl_name crowded_scene "arm"
                 = Some (numbered_ctrl_name "arm" 100))
    by (vm_compute; reflexivity).
  split; [vm_compute; reflexivity |]. split; [exact Hres |].
  intros (nn & Hnn & Heq). rewrite Hres in Heq.
  assert (Hsame : numbered_ctrl_name "arm" 100 = numbered_ctrl_name "arm" nn)
    by congruence.
  apply numbered_ctrl_name_inj in Hsame. lia.
Qed.


(** ** Rig template *)

Lemma host_name_unused (s : Scene) (name : string) :
  s !! name = None → host_name s name = name.
Proof. intros Hn. unfold host_name, objExists. by rewrite Hn. Qed.

Lemma elem_of_children (s : Scene) (p n : string) :
  n ∈ children s p ↔ ∃ nd, s !! n = Some nd ∧ parent nd = Some p.
Proof.
  unfold children. rewrite elem_of_dom. split.
  - intros [nd [Hnd Hp]%map_lookup_filter_Some]. by exists nd.
  - intros (nd & Hnd & Hp). exists nd. by apply map_lookup_filter_Some.
Qed.

Lemma utf8_chars_eq (s : string) :
  utf8_chars s =
  match s with
  | EmptyString => []
  | String a r1 =>
      let single := (utf8_decode1 a, String a EmptyString) :: utf8_chars r1 in
      match r1 with
      | EmptyString => single
      | String b r2 =>
          match utf8_decode2 a b with
          | Some cp => (cp, String a (String b EmptyString)) :: utf8_chars r2
          | None =>
              match r2 with
              | EmptyString => single
              | String c r3 =>
                  match utf8_decode3 a b c with
                  | Some cp =>
                      (cp, String a (String b (String c EmptyString)))
                      :: utf8_chars r3
                  | None =>
                      match r3 with
                      | EmptyString => single
                      | String d r4 =>
                          match utf8_decode4 a b c d with
                          | Some cp =>
                              (cp, String a (String b (String c
                                     (String d EmptyString))))
                              :: utf8_chars r4
                          | None => single
                          end
                      end
                  end
              end
          end
      end
  end.
Proof. by destruct s. Qed.

(** Cutting a string into characters: every character has at least one
    byte, and the bytes of the characters, put together, are the string. *)
Lemma utf8_chars_cut (n : nat) :
  ∀ s : string, String.length s ≤ n →
    Forall (λ c : PyChar, c.2 ≠ "") (utf8_chars s)
    ∧ chars_text (utf8_chars s) = s.
Proof.
  induction n as [| n IH]; intros s Hlen.
  { destruct s; [by split; [constructor |] | cbn [String.length] in Hlen; lia]. }
  assert (Hsingle : ∀ a r, String.length r ≤ n →
            Forall (λ c : PyChar, c.2 ≠ "")
              ((utf8_decode1 a, String a "") :: utf8_chars r)
            ∧ chars_text ((utf8_decode1 a, String a "") :: utf8_chars r)
              = String a r).
  { intros a r Hr. destruct (IH r Hr) as [Hall Htext]. split.
    - by constructor.
    - cbn [chars_text snd]. by rewrite Htext. }
  destruct s as [| a [| b [| c [| d r]]]]; cbn [String.length] in Hlen.
  - by split; [constructor |].
  - split; [by repeat constructor | done].
  - rewrite utf8_chars_eq; cbv beta iota zeta. destruct (utf8_decode2 a b).
    + split; [by repeat constructor | done].
    + apply (Hsingle a (String b "")). cbn [String.length]. lia.
  - rewrite utf8_chars_eq; cbv beta iota zeta. destruct (utf8_decode2 a b).
    + destruct (IH (String c "")) as [Hall Htext]; [cbn [String.length]; lia |].
      split; [by constructor |]. cbn [chars_text snd]. by rewrite Htext.
    + destruct (utf8_decode3 a b c).
      * split; [by repeat constructor | done].
      * apply (Hsingle a (String b (String c ""))). cbn [String.length]. lia.
  - rewrite utf8_chars_eq; cbv beta iota zeta. destruct (utf8_decode2 a b).
    + destruct (IH (String c (String d r))) as [Hall Htext];
        [cbn [String.length]; lia |].
      split; [by constructor |]. cbn [chars_text snd]. by rewrite Htext.
    + destruct (utf8_decode3 a b c).
      * destruct (IH (String d r)) as [Hall Htext]; [cbn [String.length]; lia |].
        split; [by constructor |]. cbn [chars_text snd]. by rewrite Htext.
      * destruct (utf8_decode4 a b c d).
        -- destruct (IH r) as [Hall Htext]; [lia |].
           split; [by constructor |]. cbn [chars_text snd]. by rewrite Htext.
        -- apply (Hsingle a (String b (String c (String d r)))).
           cbn [String.length]. lia.
Qed.

Lemma utf8_chars_nonempty (s : string) :
  Forall (λ c : PyChar, c.2 ≠ "") (utf8_chars s).
Proof. by apply (utf8_chars_cut (String.length s)). Qed.

Lemma chars_text_utf8_chars (s : string) : chars_text (utf8_chars s) = s.
Proof. by apply (utf8_chars_cut (String.length s)). Qed.

Lemma chars_text_empty (cs : list PyChar) :
  Forall (λ c : PyChar, c.2 ≠ "") cs → chars_text cs = "" → cs = [].
Proof.
  intros Hall. destruct Hall as [| [cp bytes] rest Hc _]; [done |].
  cbn [chars_text snd] in *. by destruct bytes.
Qed.

Lemma lstrip_chars_whitespace (cs : list PyChar) :
  lstrip_chars cs = [] ↔ forallb (λ c : PyChar, py_isspace c.1) cs = true.
Proof.
  induction cs as [| c rest IH]; cbn [lstrip_chars forallb]; [done |].
  destruct (py_isspace c.1); cbn [andb]; [exact IH | done].
Qed.

Lemma lstrip_chars_sublist (cs : list PyChar) :
  ∃ dropped, cs = dropped ++ lstrip_chars cs
             ∧ forallb (λ c : PyChar, py_isspace c.1) dropped = true.
Proof.
  induction cs as [| c rest (dropped & Hrest & Hws)]; [by exists [] |].
  cbn [lstrip_chars]. destruct (py_isspace c.1) eqn:Hc.
  - exists (c :: dropped). split; [by rewrite Hrest at 1 |].
    cbn [forallb]. by rewrite Hc, Hws.
  - by exists [].
Qed.

Lemma forallb_rev {A} (f : A → bool) (l : list A) :
  forallb f (rev l) = forallb f l.
Proof.
  induction l as [| x l IH]; [done |].
  cbn [rev forallb]. rewrite forallb_app, IH. cbn [forallb].
  by destruct (f x), (forallb f l).
Qed.

Lemma rstrip_chars_whitespace (cs : list PyChar) :
  rstrip_chars cs = [] ↔ forallb (λ c : PyChar, py_isspace c.1) cs = true.
Proof.
  unfold rstrip_chars. rewrite <- (forallb_rev _ cs) at 1.
  rewrite <- lstrip_chars_whitespace. split.
  - intros Hrev. apply (f_equal (@rev _)) in Hrev. by rewrite rev_involutive in Hrev.
  - by intros ->.
Qed.

(** The guard [if not rig_name] fires exactly on whitespace-only text. *)
Lemma strip_empty_iff (s : string) : strip s = "" ↔ whitespace_only s = true.
Proof.
  unfold strip, whitespace_only.
  destruct (lstrip_chars_sublist (utf8_chars s)) as (dropped & Hcut & Hws).
  pose proof (utf8_chars_nonempty s) as Hbytes.
  rewrite Hcut in Hbytes at 1. apply Forall_app in Hbytes as [_ Hkept].
  split.
  - intros Hempty. apply chars_text_empty in Hempty.
    + apply rstrip_chars_whitespace in Hempty.
      rewrite Hcut, forallb_app, Hws. exact Hempty.
    + unfold rstrip_chars. apply Forall_rev.
      destruct (lstrip_chars_sublist (rev (lstrip_chars (utf8_chars s))))
        as (dropped' & Hcut' & _).
      apply Forall_rev in Hkept. rewrite Hcut' in Hkept.
      by apply Forall_app in Hkept as [_ ?].
  - intros Hall. apply lstrip_chars_whitespace in Hall. by rewrite Hall.
Qed.

(** ** Running the handlers step by step *)

Lemma bind_ok {S A B} (m : ST S A) (f : A → ST S B) (s s' : S) (a : A) :
  m s = (Ok a, s') → (m ≫= f) s = f a s'.
Proof. intros Hm. unfold mbind, ST_bind, st_bind. by rewrite Hm. Qed.

Lemma bind_raise {S A B} (m : ST S A) (f : A → ST S B) (s s' : S) (e : exn) :
  m s = (Raise e, s') → (m ≫= f) s = (Raise e, s').
Proof. intros Hm. unfold mbind, ST_bind, st_bind. by rewrite Hm. Qed.

(** A sequence ends normally only if its first part does. *)
Lemma bind_ok_inv {S A B} (m : ST S A) (f : A → ST S B) (s s' : S) (b : B) :
  (m ≫= f) s = (Ok b, s') → ∃ a s1, m s = (Ok a, s1) ∧ f a s1 = (Ok b, s').
Proof.
  unfold mbind, ST_bind, st_bind. destruct (m s) as [[a | e |] s1]; try done.
  intros Hf. by exists a, s1.
Qed.

Lemma lift_host_ok {A} (m : ST Host A) (w : World) (a : A) (h' : Host) :
  m (host w) = (Ok a, h') →
  RiggingToolsUI.lift_host m w = (Ok a, mkWorld (ui w) h' (log w)).
Proof. intros Hm. unfold RiggingToolsUI.lift_host. by rewrite Hm. Qed.

Lemma cmds_group_unused (objects : list string) (empty world : bool)
    (name : string) (h : Host) :
  scene h !! name = None →
  cmds_group objects empty world name h
  = (Ok name,
     mkHost (foldr (λ c acc, alter (set_parent (Some name)) c acc)
               (<[name := new_node transform
                            (if world then None
                             else common_parent (scene h)
                                    (if empty then [] else objects))]> (scene h))
               (if empty then [] else objects))
            [DagItem name]).
Proof. intros Hn. unfold cmds_group. by rewrite host_name_unused. Qed.

Ltac map_lookups :=
  repeat first
    [ rewrite lookup_insert_eq
    | rewrite lookup_alter_eq
    | rewrite lookup_insert_ne by done
    | rewrite lookup_alter_ne by done ].

Ltac lookup_through := cbn [scene host ui log foldr]; map_lookups; done.

Ltac group_step :=
  erewrite bind_ok;
  [| apply lift_host_ok, cmds_group_unused; lookup_through ];
  cbn [scene host ui log foldr].

Ltac split_names H :=
  repeat match type of H with
         | Forall _ (_ :: _) =>
             let H1 := fresh "Hname" in
             apply Forall_cons in H; destruct H as [H1 H]
         end;
  clear H.

Lemma ne_sym (a b : string) : a ≠ b → b ≠ a.
Proof. intros Hab Hba. by apply Hab. Qed.

(** With the eight names unused and the rig name none of the seven fixed
    ones, every group gets the name asked for and the handler leaves
    [rig_template_scene]. *)
Lemma create_rig_template_run (w : World) (rig_name : string) :
  strip (rig_temp_name_field (ui w)) = rig_name →
  rig_name ≠ "" →
  rig_name ∉ template_groups →
  (∀ n, n ∈ rig_name :: template_groups → scene (host w) !! n = None) →
  RiggingToolsUI.create_rig_template w
  = (Ok tt, mkWorld (ui w)
              (mkHost (rig_template_scene (scene (host w)) rig_name)
                      [DagItem rig_name])
              (log w)).
Proof.
  intros Hstrip Hne Hnotin Hfree.
  assert (Hd : Forall (λ n, rig_name ≠ n) template_groups).
  { apply Forall_forall. by intros n Hn ->. }
  assert (Hf : Forall (λ n, scene (host w) !! n = None) (rig_name :: template_groups)).
  { by apply Forall_forall. }
  unfold template_groups in Hd, Hf. split_names Hd. split_names Hf.
  clear Hfree Hnotin.
  unfold RiggingToolsUI.create_rig_template.
  erewrite bind_ok by reflexivity.
  rewrite Hstrip, (proj2 (String.eqb_neq _ _)) by done.
  do 8 group_step.
  unfold common_parent. cbn [forallb]. map_lookups.
  cbn [fmap option_fmap option_map mbind option_bind parent new_node set_parent].
  rewrite !bool_decide_eq_true_2 by done. cbn [andb].
  unfold mret, ST_ret, st_ret. do 3 f_equal.
  apply map_eq. intros n. unfold rig_template_scene.
  repeat match goal with H : rig_name ≠ _ |- _ => apply ne_sym in H end.
  destruct (decide (n = rig_name)) as [-> | ?]; [map_lookups; done |].
  destruct (decide (n = "geo_grp")) as [-> | ?]; [map_lookups; done |].
  destruct (decide (n = "jnt_grp")) as [-> | ?]; [map_lookups; done |].
  destruct (decide (n = "ctrl_grp")) as [-> | ?]; [map_lookups; done |].
  destruct (decide (n = "prx_grp")) as [-> | ?]; [map_lookups; done |].
  destruct (decide (n = "render_grp")) as [-> | ?]; [map_lookups; done |].
  destruct (decide (n = "anim_grp")) as [-> | ?]; [map_lookups; done |].
  destruct (decide (n = "export_grp")) as [-> | ?]; [map_lookups; done |].
  assert (∀ k : string, n ≠ k → k ≠ n) by (intros k; apply ne_sym).
  map_lookups. done.
Qed.

(** C9: with a rig name that is blank or made of whitespace only, in the
    sense of [str.isspace] over all of Unicode (an em space or an
    ideographic space as much as a blank or a tab), [create_rig_template]
    leaves the scene, the selection and the dialog as they were, and its
    only effect is one warning added to the log. *)
Theorem create_rig_template_blank (w : World) :
  whitespace_only (rig_temp_name_field (ui w)) = true →
  RiggingToolsUI.create_rig_template w
  = (Ok tt, mkWorld (ui w) (host w)
              (log w ++ [LogWarning "No rig name has been specified."])).
Proof.
  intros Hblank%strip_empty_iff.
  unfold RiggingToolsUI.create_rig_template, mbind, ST_bind, st_bind, gets.
  by rewrite Hblank.
Qed.

Lemma create_rig_template_blank_witness :
  RiggingToolsUI.create_rig_template (world_with_rig_name two_arms_host wide_blank)
  = (Ok tt, mkWorld (ui (world_with_rig_name two_arms_host wide_blank))
              two_arms_host
              [LogWarning "No rig name has been specified."]).
Proof.
  apply (create_rig_template_blank (world_with_rig_name two_arms_host wide_blank)).
  vm_compute. reflexivity.
Defined.


(** ** The hierarchy of the rig template *)

Lemma template_groups_distinct (rig_name : string) :
  rig_name ∉ template_groups →
  rig_name ≠ "prx_grp" ∧ rig_name ≠ "render_grp" ∧ rig_name ≠ "geo_grp"
  ∧ rig_name ≠ "anim_grp" ∧ rig_name ≠ "export_grp" ∧ rig_name ≠ "jnt_grp"
  ∧ rig_name ≠ "ctrl_grp".
Proof.
  unfold template_groups. rewrite !not_elem_of_cons. tauto.
Qed.

(** The eight nodes of the template, and the rest of the scene. *)
Lemma rig_template_scene_new (s : Scene) (rig_name : string) :
  rig_name ∉ template_groups →
  rig_template_scene s rig_name !! rig_name = Some (new_node transform None)
  ∧ rig_template_scene s rig_name !! "geo_grp" = Some (new_node transform (Some rig_name))
  ∧ rig_template_scene s rig_name !! "jnt_grp" = Some (new_node transform (Some rig_name))
  ∧ rig_template_scene s rig_name !! "ctrl_grp" = Some (new_node transform (Some rig_name))
  ∧ rig_template_scene s rig_name !! "prx_grp" = Some (new_node transform (Some "geo_grp"))
  ∧ rig_template_scene s rig_name !! "render_grp" = Some (new_node transform (Some "geo_grp"))
  ∧ rig_template_scene s rig_name !! "anim_grp" = Some (new_node transform (Some "jnt_grp"))
  ∧ rig_template_scene s rig_name !! "export_grp" = Some (new_node transform (Some "jnt_grp"))
  ∧ (∀ n, n ∉ rig_name :: template_groups →
          rig_template_scene s rig_name !! n = s !! n).
Proof.
  intros (? & ? & ? & ? & ? & ? & ?)%template_groups_distinct.
  unfold rig_template_scene. repeat split; try (map_lookups; done).
  intros n Hn. unfold template_groups in Hn. rewrite !not_elem_of_cons in Hn.
  destruct Hn as (? & ? & ? & ? & ? & ? & ? & ? & _).
  assert (∀ k : string, n ≠ k → k ≠ n) by (intros k; apply ne_sym).
  map_lookups. done.
Qed.

(** Which node of the template scene hangs under which. *)
Lemma rig_template_parent (s : Scene) (rig_name n p : string) (nd : Node) :
  rig_name ∉ template_groups →
  scene_wf s →
  s !! p = None →
  rig_template_scene s rig_name !! n = Some nd →
  parent nd = Some p →
  (p = rig_name ∧ (n = "geo_grp" ∨ n = "jnt_grp" ∨ n = "ctrl_grp"))
  ∨ (p = "geo_grp" ∧ (n = "prx_grp" ∨ n = "render_grp"))
  ∨ (p = "jnt_grp" ∧ (n = "anim_grp" ∨ n = "export_grp")).
Proof.
  intros Hnotin Hwf Hp Hnd Hpar.
  destruct (rig_template_scene_new s rig_name Hnotin)
    as (Hroot & Hgeo & Hjnt & Hctrl & Hprx & Hrender & Hanim & Hexport & Hold).
  destruct (decide (n = rig_name)) as [-> | ?].
  { rewrite Hroot in Hnd. injection Hnd as <-. done. }
  destruct (decide (n = "geo_grp")) as [-> | ?].
  { rewrite Hgeo in Hnd. injection Hnd as <-. injection Hpar as <-. auto. }
  destruct (decide (n = "jnt_grp")) as [-> | ?].
  { rewrite Hjnt in Hnd. injection Hnd as <-. injection Hpar as <-. auto. }
  destruct (decide (n = "ctrl_grp")) as [-> | ?].
  { rewrite Hctrl in Hnd. injection Hnd as <-. injection Hpar as <-. auto. }
  destruct (decide (n = "prx_grp")) as [-> | ?].
  { rewrite Hprx in Hnd. injection Hnd as <-. injection Hpar as <-. auto. }
  destruct (decide (n = "render_grp")) as [-> | ?].
  { rewrite Hrender in Hnd. injection Hnd as <-. injection Hpar as <-. auto. }
  destruct (decide (n = "anim_grp")) as [-> | ?].
  { rewrite Hanim in Hnd. injection Hnd as <-. injection Hpar as <-. auto. }
  destruct (decide (n = "export_grp")) as [-> | ?].
  { rewrite Hexport in Hnd. injection Hnd as <-. injection Hpar as <-. auto. }
  rewrite Hold in Hnd.
  - destruct (Hwf n nd p Hnd Hpar) as [x Hx]. congruence.
  - unfold template_groups. rewrite !not_elem_of_cons.
    repeat split; try done. apply not_elem_of_nil.
Qed.


Section RigTemplateChildren.
Variables (s : Scene) (rig_name : string).
Hypothesis Hnotin : rig_name ∉ template_groups.
Hypothesis Hwf : scene_wf s.
Hypothesis Hfree : ∀ n, n ∈ rig_name :: template_groups → s !! n = None.

Local Lemma template_name_free (n : string) :
    n = rig_name ∨ n ∈ template_groups → s !! n = None.
  Proof. intros Hn. apply Hfree, elem_of_cons. tauto. Qed.

Lemma rig_template_children_geo :
    children (rig_template_scene s rig_name) "geo_grp" = {["prx_grp"; "render_grp"]}.
  Proof.
    destruct (template_groups_distinct rig_name Hnotin) as (? & ? & ? & ? & ? & ? & ?).
    destruct (rig_template_scene_new s rig_name Hnotin)
      as (_ & _ & _ & _ & Hprx & Hrender & _).
    apply set_eq. intros n.
    rewrite elem_of_children, elem_of_union, !elem_of_singleton. split.
    - intros (nd & Hnd & Hpar).
      destruct (rig_template_parent s rig_name n "geo_grp" nd)
        as [[? _] | [[_ ?] | [? _]]]; try done.
      apply template_name_free. right. unfold template_groups.
      do 2 apply list_elem_of_further. apply list_elem_of_here.
    - intros [-> | ->]; eexists; (split; [eassumption | done]).
  Qed.

Lemma rig_template_children_jnt :
    children (rig_template_scene s rig_name) "jnt_grp" = {["anim_grp"; "export_grp"]}.
  Proof.
    destruct (template_groups_distinct rig_name Hnotin) as (? & ? & ? & ? & ? & ? & ?).
    destruct (rig_template_scene_new s rig_name Hnotin)
      as (_ & _ & _ & _ & _ & _ & Hanim & Hexport & _).
    apply set_eq. intros n.
    rewrite elem_of_children, elem_of_union, !elem_of_singleton. split.
    - intros (nd & Hnd & Hpar).
      destruct (rig_template_parent s rig_name n "jnt_grp" nd)
        as [[? _] | [[? _] | [_ ?]]]; try done.
      apply template_name_free. right. unfold template_groups.
      do 5 apply list_elem_of_further. apply list_elem_of_here.
    - intros [-> | ->]; eexists; (split; [eassumption | done]).
  Qed.

Lemma rig_template_children_root :
    children (rig_template_scene s rig_name) rig_name
    = {["geo_grp"; "jnt_grp"; "ctrl_grp"]}.
  Proof.
    destruct (template_groups_distinct rig_name Hnotin) as (? & ? & ? & ? & ? & ? & ?).
    destruct (rig_template_scene_new s rig_name Hnotin)
      as (_ & Hgeo & Hjnt & Hctrl & _).
    apply set_eq. intros n.
    rewrite elem_of_children, !elem_of_union, !elem_of_singleton. split.
    - intros (nd & Hnd & Hpar).
      destruct (rig_template_parent s rig_name n rig_name nd)
        as [[_ ?] | [[? _] | [? _]]]; try done; [| tauto].
      apply template_name_free. by left.
    - intros [[-> | ->] | ->]; eexists; (split; [eassumption | done]).
  Qed.

Lemma rig_template_children_leaf (g : string) :
    g ∈ ["prx_grp"; "render_grp"; "anim_grp"; "export_grp"; "ctrl_grp"] →
    children (rig_template_scene s rig_name) g = ∅.
  Proof.
    intros Hg.
    destruct (template_groups_distinct rig_name Hnotin) as (? & ? & ? & ? & ? & ? & ?).
    assert (Hgfree : s !! g = None).
    { apply template_name_free. right. unfold template_groups.
      repeat (apply elem_of_cons in Hg as [-> | Hg]);
        try (by apply elem_of_nil in Hg);
        repeat first [apply list_elem_of_here | apply list_elem_of_further]. }
    apply set_eq. intros n. rewrite elem_of_children. split; [| by intros ?%elem_of_empty].
    intros (nd & Hnd & Hpar). exfalso.
    destruct (rig_template_parent s rig_name n g nd Hnotin Hwf Hgfree Hnd Hpar)
      as [[-> _] | [[-> _] | [-> _]]];
      repeat (apply elem_of_cons in Hg as [Hg | Hg]);
      try (by apply elem_of_nil in Hg); try done; by subst.
  Qed.
End RigTemplateChildren.

Lemma rig_template_dom (s : Scene) (rig_name : string) :
  dom (rig_template_scene s rig_name)
  = dom s ∪ list_to_set (rig_name :: template_groups).
Proof.
  unfold rig_template_scene, template_groups.
  rewrite !dom_insert_L. cbn [list_to_set foldr].
  apply set_eq. intros n.
  rewrite !elem_of_union, !elem_of_singleton, elem_of_empty. tauto.
Qed.

(** C3 (as amended): when the rig name, stripped of surrounding whitespace,
    is not blank and is none of the seven fixed group names, and none of the
    eight names is in use in the scene, [create_rig_template] ends normally
    and leaves exactly the hierarchy of the specification: the root, named by
    the stripped input, sits under the world with the children [geo_grp],
    [jnt_grp] and [ctrl_grp]; [geo_grp] has the children [prx_grp] and
    [render_grp]; [jnt_grp] has the children [anim_grp] and [export_grp]; the
    five remaining groups have no children; the nodes that were in the scene
    are unchanged. *)
Theorem create_rig_template_hierarchy (w : World) (rig_name : string) :
  strip (rig_temp_name_field (ui w)) = rig_name →
  rig_name ≠ "" →
  rig_name ∉ template_groups →
  (∀ n, n ∈ rig_name :: template_groups → scene (host w) !! n = None) →
  scene_wf (scene (host w)) →
  ∃ w', RiggingToolsUI.create_rig_template w = (Ok tt, w')
        ∧ children (scene (host w')) "geo_grp" = {["prx_grp"; "render_grp"]}
        ∧ children (scene (host w')) "jnt_grp" = {["anim_grp"; "export_grp"]}
        ∧ children (scene (host w')) rig_name = {["geo_grp"; "jnt_grp"; "ctrl_grp"]}
        ∧ (∀ g, g ∈ ["prx_grp"; "render_grp"; "anim_grp"; "export_grp"; "ctrl_grp"] →
                children (scene (host w')) g = ∅)
        ∧ scene (host w') !! rig_name = Some (new_node transform None)
        ∧ (∀ n, n ∉ rig_name :: template_groups →
                scene (host w') !! n = scene (host w) !! n)
        ∧ dom (scene (host w'))
          = dom (scene (host w)) ∪ list_to_set (rig_name :: template_groups).
Proof.
  intros Hstrip Hne Hnotin Hfree Hwf.
  eexists. split; [by apply create_rig_template_run |]. cbn [scene host].
  destruct (rig_template_scene_new (scene (host w)) rig_name Hnotin)
    as (Hroot & _ & _ & _ & _ & _ & _ & _ & Hold).
  refine (conj _ (conj _ (conj _ (conj _ (conj _ (conj _ _)))))).
  - exact (rig_template_children_geo _ _ Hnotin Hwf Hfree).
  - exact (rig_template_children_jnt _ _ Hnotin Hwf Hfree).
  - exact (rig_template_children_root _ _ Hnotin Hwf Hfree).
  - exact (rig_template_children_leaf _ _ Hnotin Hwf Hfree).
  - done.
  - done.
  - apply rig_template_dom.
Qed.

Lemma create_rig_template_hierarchy_witness :
  ∃ w', RiggingToolsUI.create_rig_template (world_with_rig_name two_arms_host " charA ")
        = (Ok tt, w')
        ∧ children (scene (host w')) "geo_grp" = {["prx_grp"; "render_grp"]}
        ∧ children (scene (host w')) "jnt_grp" = {["anim_grp"; "export_grp"]}
        ∧ children (scene (host w')) "charA" = {["geo_grp"; "jnt_grp"; "ctrl_grp"]}
        ∧ (∀ g, g ∈ ["prx_grp"; "render_grp"; "anim_grp"; "export_grp"; "ctrl_grp"] →
                children (scene (host w')) g = ∅)
        ∧ scene (host w') !! "charA" = Some (new_node transform None)
        ∧ (∀ n, n ∉ "charA" :: template_groups →
                scene (host w') !! n = two_arms_scene !! n)
        ∧ dom (scene (host w'))
          = dom two_arms_scene ∪ list_to_set ("charA" :: template_groups).
Proof.
  apply (create_rig_template_hierarchy
           (world_with_rig_name two_arms_host " charA ") "charA").
  - reflexivity.
  - discriminate.
  - unfold template_groups. rewrite !not_elem_of_cons.
    repeat split; try discriminate. apply not_elem_of_nil.
  - intros n Hn. unfold template_groups in Hn.
    repeat (apply elem_of_cons in Hn as [-> | Hn]);
      try (by apply elem_of_nil in Hn); vm_compute; reflexivity.
  - intros n nd p Hn Hp. cbn [scene host world_with_rig_name two_arms_host] in *.
    destruct (decide (n = "arm_ctrl")) as [-> | ?];
      [vm_compute in Hn; injection Hn as <-; discriminate Hp |].
    destruct (decide (n = "arm_01_ctrl")) as [-> | ?];
      [vm_compute in Hn; injection Hn as <-; discriminate Hp |].
    unfold two_arms_scene, scene_of_names in Hn. cbn [map list_to_map foldr] in Hn.
    rewrite !lookup_insert_ne, lookup_empty in Hn by done. done.
Defined.


(** C3 (as stated) fails for a rig name that is one of the fixed group
    names: asked for a root called [geo_grp] while the group [geo_grp] made
    three lines earlier exists, the host names the root [geo_grp1]; the node
    named by the input keeps the children [prx_grp] and [render_grp]. *)
Lemma create_rig_template_name_clash :
  let r := RiggingToolsUI.create_rig_template
             (world_with_rig_name empty_host "geo_grp") in
  r.1 = Ok tt
  ∧ children (scene (host r.2)) "geo_grp" = {["prx_grp"; "render_grp"]}
  ∧ children (scene (host r.2)) "geo_grp" ≠ {["geo_grp"; "jnt_grp"; "ctrl_grp"]}
  ∧ children (scene (host r.2)) "geo_grp1" = {["geo_grp"; "jnt_grp"; "ctrl_grp"]}.
Proof.
  cbv zeta.
  assert (Hkids : children (scene (host (RiggingToolsUI.create_rig_template
                     (world_with_rig_name empty_host "geo_grp")).2)) "geo_grp"
                  = {["prx_grp"; "render_grp"]}).
  { refine (bool_decide_unpack _ _). vm_compute. exact I. }
  split; [vm_compute; reflexivity |]. split; [exact Hkids |]. split.
  - rewrite Hkids. intros Heq.
    assert (Hin : "jnt_grp" ∈ ({["prx_grp"; "render_grp"]} : gset string))
      by (rewrite Heq; set_solver).
    apply elem_of_union in Hin as [Hin | Hin]; apply elem_of_singleton in Hin;
      discriminate Hin.
  - refine (bool_decide_unpack _ _). vm_compute. exact I.
Qed.


(** ** Colour handling *)

Lemma QtGui_unbound : lookup_name RiggingToolsUI.module_globals "QtGui" = None.
Proof. vm_compute. reflexivity. Qed.

(** C10: whatever the state of the dialog and of the scene, clicking a
    preset colour button raises [NameError] for [QtGui] and changes nothing:
    no colour is stored, the swatch keeps its style, nothing is logged.
    Where annotations are evaluated when a function is defined, the class
    body itself stops with the same error at [set_color]. *)
Theorem preset_clicked_name_error (b : RiggingToolsUI.PresetButton) (w : World) :
  RiggingToolsUI.preset_clicked b w = (Raise (NameError "QtGui"), w)
  ∧ RiggingToolsUI.exec_class_body RiggingToolsUI.method_annotations
    = Raise (NameError "QtGui").
Proof.
  split; [| vm_compute; reflexivity].
  unfold RiggingToolsUI.preset_clicked. apply bind_raise.
  unfold load_global. by rewrite QtGui_unbound.
Qed.

(** What the picker stores, for comparison: the three channels of the
    chosen colour. *)
Lemma get_picker_color_stores (picked : QColor) (w : World) :
  isValid picked = true →
  ∃ w', RiggingToolsUI.get_picker_color picked w = (Ok tt, w')
        ∧ ctrl_color (ui w') = Some (redF picked, greenF picked, blueF picked)
        ∧ host w' = host w.
Proof.
  intros Hvalid. unfold RiggingToolsUI.get_picker_color. rewrite Hvalid.
  eexists. split; [reflexivity | split; reflexivity].
Qed.

(** C7, at the failing input: on a freshly opened dialog the red button
    stores nothing, while the picker returning red stores [(1, 0, 0)]. *)
Lemma red_button_stores_nothing :
  let pressed := RiggingToolsUI.preset_clicked RiggingToolsUI.red_btn fresh_world in
  let picked := RiggingToolsUI.get_picker_color (QColor_of_name "red") fresh_world in
  pressed.1 = Raise (NameError "QtGui")
  ∧ ctrl_color (ui pressed.2) = None
  ∧ picked.1 = Ok tt
  ∧ ctrl_color (ui picked.2) = Some (1, 0, 0)%float.
Proof. cbv zeta. repeat split; vm_compute; reflexivity. Qed.


(** ** Controller creation *)

Lemma gets_bind {S A B} (f : S → A) (k : A → ST S B) (s : S) :
  (gets f ≫= k) s = k (f s) s.
Proof. reflexivity. Qed.

(** Lines 280-282: the saved selection is put back and the end is logged. *)
Lemma restore_and_report_run (orig_sel : list SelItem) (w : World) :
  (RiggingToolsUI.lift_host (modify (λ h, mkHost (scene h) orig_sel));;
   RiggingToolsUI.LOG (LogInfo "Finished creating ctrls")) w
  = (Ok tt, mkWorld (ui w) (mkHost (scene (host w)) orig_sel)
              (log w ++ [LogInfo "Finished creating ctrls"])).
Proof. reflexivity. Qed.

(** C8: whenever [create_blank_controller] ends normally, the active
    selection is, item for item and in the same order, the one it found when
    it started; this covers the selection-driven mode with any number of
    selected objects, the custom-name mode and the blank-name return. *)
Theorem create_blank_controller_restores_selection (w w' : World) :
  RiggingToolsUI.create_blank_controller w = (Ok tt, w') →
  activeSelection (host w') = activeSelection (host w).
Proof.
  unfold RiggingToolsUI.create_blank_controller.
  rewrite gets_bind. cbv zeta. rewrite gets_bind.
  destruct (ctrl_custom_name_checkbox (ui w)).
  - rewrite gets_bind.
    destruct (String.eqb (strip (ctrl_name_field (ui w))) "").
    + intros [= <-]. reflexivity.
    + intros (a & w1 & _ & Hrest)%bind_ok_inv.
      rewrite restore_and_report_run in Hrest. by injection Hrest as <-.
  - unfold RiggingToolsUI.get_selected_object_name. rewrite gets_bind.
    intros (a & w1 & _ & Hrest)%bind_ok_inv.
    rewrite restore_and_report_run in Hrest. by injection Hrest as <-.
Qed.

Lemma create_blank_controller_restores_selection_witness :
  (RiggingToolsUI.create_blank_controller two_selected_world).1 = Ok tt
  ∧ activeSelection
      (host (RiggingToolsUI.create_blank_controller two_selected_world).2)
    = [DagItem "|a"; NonDagItem "lambert1"; DagItem "|a|b"].
Proof.
  split; [vm_compute; reflexivity |].
  apply (create_blank_controller_restores_selection two_selected_world
           (RiggingToolsUI.create_blank_controller two_selected_world).2).
  vm_compute. reflexivity.
Defined.


(** The search for a controller name always ends, with a name that is not in
    the scene. *)
Lemma unique_ctrl_name_returns (s : Scene) (base_name : string) :
  ∃ name, RiggingToolsUI.unique_ctrl_name s base_name = Some name
          ∧ s !! name = None.
Proof.
  unfold RiggingToolsUI.unique_ctrl_name.
  destruct (objExists s (base_name +:+ "_ctrl")) eqn:Hbase; cbn [negb].
  - destruct (unique_ctrl_loop_result s base_name (S (size s)) 1)
      as [(k & _ & Hres & Hfree & _) | [_ Hall]].
    + exists (numbered_ctrl_name base_name k). split; [done |].
      by apply objExists_false.
    + exfalso. apply (names_not_exhausted s (numbered_ctrl_name base_name) 1);
        [apply numbered_ctrl_name_inj | done].
  - exists (base_name +:+ "_ctrl"). split; [done |]. by apply objExists_false.
Qed.

(** Without a stored colour, line 257 cannot unpack [None]. *)
Lemma set_controller_color_unset (controller : string) (w : World) :
  ctrl_color (ui w) = None →
  RiggingToolsUI.set_controller_color controller w
  = (Raise (TypeError "cannot unpack non-iterable NoneType object"), w).
Proof.
  intros Hnone. unfold RiggingToolsUI.set_controller_color.
  rewrite gets_bind, Hnone. reflexivity.
Qed.

(** The host only ever appends to the requested name. *)
Lemma host_name_loop_length (s : Scene) (name : string) (fuel k : nat) :
  String.length name ≤ String.length (host_name_loop s name fuel k).
Proof.
  revert k. induction fuel as [|fuel IH]; intros k; simpl.
  - rewrite append_length. lia.
  - destruct (objExists s (name +:+ decimal k)); [apply IH |].
    rewrite append_length. lia.
Qed.

Lemma host_name_length (s : Scene) (name : string) :
  String.length name ≤ String.length (host_name s name).
Proof.
  unfold host_name. destruct (objExists s name); [| done].
  apply host_name_loop_length.
Qed.

Lemma host_name_longer (s : Scene) (name suffix : string) :
  suffix ≠ "" → host_name s (name +:+ suffix) ≠ name.
Proof.
  intros Hsuffix Heq.
  pose proof (host_name_length s (name +:+ suffix)) as Hlen.
  rewrite Heq, append_length in Hlen.
  destruct suffix; [done | simpl in Hlen; lia].
Qed.

(** Lines 240-248 without a stored colour, in custom-name mode: the circle
    and its offset group are made, then the colour step raises. *)
Lemma create_curve_offset_group_no_color (controller_name : string) (w : World) :
  ctrl_color (ui w) = None →
  ctrl_custom_name_checkbox (ui w) = true →
  ∃ w' circle,
    RiggingToolsUI.create_curve_offset_group controller_name w
    = (Raise (TypeError "cannot unpack non-iterable NoneType object"), w')
    ∧ scene (host w) !! circle = None
    ∧ (∃ nd, scene (host w') !! circle = Some nd ∧ nodeType nd = transform)
    ∧ size (scene (host w)) < size (scene (host w'))
    ∧ log w' = log w.
Proof.
  intros Hnone Hchecked.
  destruct (unique_ctrl_name_returns (scene (host w))
              (split_last "|"%char controller_name))
    as (circle & Hunique & Hfree).
  eexists _, circle. split.
  { unfold RiggingToolsUI.create_curve_offset_group. cbv zeta.
    erewrite bind_ok;
      [| unfold RiggingToolsUI.call_unique_ctrl_name; rewrite Hunique; reflexivity].
    erewrite bind_ok;
      [| apply lift_host_ok; unfold cmds_circle;
         rewrite (host_name_unused _ circle Hfree); reflexivity].
    erewrite bind_ok; [| apply lift_host_ok; reflexivity].
    rewrite gets_bind. cbn [ui]. rewrite Hchecked. cbn [negb].
    erewrite bind_ok by reflexivity.
    by apply set_controller_color_unset. }
  cbn [scene host log ui foldr].
  set (s0 := scene (host w)) in *.
  set (s1 := <[circle := new_node transform None]> s0).
  set (shape := host_name s1 (circle +:+ "Shape")).
  set (s2 := <[shape := new_node nurbsCurve (Some circle)]> s1).
  set (offset := host_name s2 (circle +:+ "_offset")).
  assert (Hshape : shape ≠ circle) by (by apply host_name_longer).
  assert (Hoffset : offset ≠ circle) by (by apply host_name_longer).
  split; [done |]. split; [| split; [| done]].
  - rewrite lookup_alter_eq, lookup_insert_ne by done.
    unfold s2, s1. rewrite lookup_insert_ne, lookup_insert_eq by done.
    by eexists.
  - rewrite <- !size_dom.
    rewrite dom_alter_L, !dom_insert_L.
    assert (Hnew : circle ∉ dom s0) by (by apply not_elem_of_dom).
    assert (Hle : size ({[circle]} ∪ dom s0) ≤ size ({[offset]} ∪ ({[shape]} ∪ dom s1))).
    { apply subseteq_size. unfold s1. rewrite dom_insert_L.
      intros n. rewrite !elem_of_union. tauto. }
    rewrite size_union, size_singleton in Hle
      by (by apply disjoint_singleton_l).
    unfold s2. rewrite dom_insert_L. simpl in Hle. lia.
Qed.

(** C5, what the code does instead: with no colour chosen, in custom-name
    mode with a non-blank name, [create_blank_controller] first adds the
    circle to the scene (and groups it), and only then fails, with the
    [TypeError] of the unpacking; the nodes stay, the selection is left on
    the new group and nothing is reported to the log. *)
Theorem create_blank_controller_no_color (w : World) :
  ctrl_color (ui w) = None →
  ctrl_custom_name_checkbox (ui w) = true →
  strip (ctrl_name_field (ui w)) ≠ "" →
  ∃ w' circle,
    RiggingToolsUI.create_blank_controller w
    = (Raise (TypeError "cannot unpack non-iterable NoneType object"), w')
    ∧ scene (host w) !! circle = None
    ∧ (∃ nd, scene (host w') !! circle = Some nd ∧ nodeType nd = transform)
    ∧ size (scene (host w)) < size (scene (host w'))
    ∧ log w' = log w.
Proof.
  intros Hnone Hchecked Hname.
  destruct (create_curve_offset_group_no_color
              (strip (ctrl_name_field (ui w))) w Hnone Hchecked)
    as (w' & circle & Hrun & Hrest).
  exists w', circle. split; [| exact Hrest].
  unfold RiggingToolsUI.create_blank_controller.
  rewrite gets_bind. cbv zeta. rewrite gets_bind, Hchecked, gets_bind.
  rewrite (proj2 (String.eqb_neq _ _)) by done.
  by apply bind_raise.
Qed.

Lemma create_blank_controller_no_color_witness :
  ∃ w' circle,
    RiggingToolsUI.create_blank_controller fresh_custom_world
    = (Raise (TypeError "cannot unpack non-iterable NoneType object"), w')
    ∧ scene (host fresh_custom_world) !! circle = None
    ∧ (∃ nd, scene (host w') !! circle = Some nd ∧ nodeType nd = transform)
    ∧ size (scene (host fresh_custom_world)) < size (scene (host w'))
    ∧ log w' = log fresh_custom_world.
Proof.
  apply (create_blank_controller_no_color fresh_custom_world).
  - reflexivity.
  - reflexivity.
  - vm_compute. discriminate.
Defined.

(** C5, at the failing input: a fresh dialog, custom name [foo], empty
    scene.  The call raises the [TypeError]; [foo_ctrl], its shape and
    [foo_ctrl_offset] are in the scene afterwards. *)
Lemma fresh_dialog_custom_name_run :
  let r := RiggingToolsUI.create_blank_controller fresh_custom_world in
  r.1 = Raise (TypeError "cannot unpack non-iterable NoneType object")
  ∧ dom (scene (host r.2)) = {["foo_ctrl"; "foo_ctrlShape"; "foo_ctrl_offset"]}
  ∧ log r.2 = [].
Proof.
  cbv zeta. split; [vm_compute; reflexivity |]. split; [| vm_compute; reflexivity].
  refine (bool_decide_unpack _ _). vm_compute. exact I.
Qed.


(** ** centroid_joint_creation.py: the selection's vertices *)

Section CentroidErrors.
Import CentroidJointCreation.
Context {F : Type} `{Scalar F}.
Variable getPoint : string → nat → MPoint F.

  (** The loop over a selection in two parts: the second part is reached
      only when no item of the first raises. *)
Lemma collect_points_app (l1 l2 : list SelEntry) :
    collect_points getPoint (l1 ++ l2)
    = match collect_points getPoint l1 with
      | Ok points1 =>
          match collect_points getPoint l2 with
          | Ok points2 => Ok (points1 ++ points2)
          | failed => failed
          end
      | failed => failed
      end.
  Proof.
    induction l1 as [| [dag_path component | e] l1 IH]; cbn [app collect_points].
    - by destruct (collect_points getPoint l2).
    - destruct (decide (apiType component ≠ kMeshVertComponent)); [done |].
      rewrite IH. destruct (collect_points getPoint l1) as [points1 | |]; [| done ..].
      destruct (collect_points getPoint l2); [| done ..].
      by rewrite app_assoc.
    - done.
  Qed.

  (** An item whose component is not a mesh-vertex component contributes no
      point and no error. *)
Lemma collect_points_skip (l1 l2 : list SelEntry) (dag_path : string)
      (component : Component) :
    apiType component ≠ kMeshVertComponent →
    collect_points getPoint (l1 ++ Returns dag_path component :: l2)
    = collect_points getPoint (l1 ++ l2).
  Proof.
    intros Hskip. rewrite !collect_points_app. cbn [collect_points].
    by destruct (decide (apiType component ≠ kMeshVertComponent)).
  Qed.

  (** The result of [selected_vertices_center], by what the loop gives. *)
Lemma selected_vertices_center_run (sel : list SelEntry) :
    selected_vertices_center getPoint sel
    = match sel with
      | [] => Raise (RuntimeError "We did not find anything selected.")
      | _ :: _ =>
          match collect_points getPoint sel with
          | Ok [] => Raise (RuntimeError "No mesh vertices selected currently.")
          | Ok points => Ok (average points)
          | Raise e => Raise e
          | Hang => Hang
          end
      end.
  Proof.
    unfold selected_vertices_center. by destruct sel.
  Qed.

  (** C6, where the code departs from it: an item for which [getComponent]
      raises is not skipped.  Whatever the items before it select, as long
      as [getComponent] returns for them, and whatever follows it,
      [selected_vertices_center] ends with the host's exception; this
      happens also when the selection holds mesh vertices, for which the
      function returns their average once the item is taken out of the
      selection. *)
Theorem selected_vertices_center_unguarded (l1 l2 : list SelEntry)
      (e : exn) (points : list (MPoint F)) :
    collect_points getPoint l1 = Ok points →
    selected_vertices_center getPoint (l1 ++ Raises e :: l2) = Raise e
    ∧ (∀ points2, collect_points getPoint l2 = Ok points2 →
                  points ++ points2 ≠ [] →
                  selected_vertices_center getPoint (l1 ++ l2)
                  = Ok (average (points ++ points2))).
  Proof.
    intros Hl1. split.
    - rewrite selected_vertices_center_run, collect_points_app, Hl1.
      by destruct l1.
    - intros points2 Hl2 Hsome.
      rewrite selected_vertices_center_run, collect_points_app, Hl1, Hl2.
      destruct (l1 ++ l2) as [| item rest] eqn:Hsel.
      + apply app_eq_nil in Hsel as [-> ->].
        cbn [collect_points] in Hl1, Hl2.
        injection Hl1 as <-. injection Hl2 as <-. done.
      + by destruct (points ++ points2).
  Qed.

  (** X13: what [selected_vertices_center] does with every selection.  It
      raises "nothing selected" on an empty selection; on a selection that
      is not empty it ends with the exception of the first item for which
      [getComponent] raises, if there is one, and otherwise with a second,
      different error when no vertex point was collected and with the
      average of the points when some were.  So it raises exactly when no
      vertex point is collected or [getComponent] raises.  An item for
      which [getComponent] returns a component that is no mesh-vertex
      component is skipped: put anywhere into a selection that is not empty,
      it changes nothing. *)
Theorem selected_vertices_center_errors (sel : list SelEntry) :
    (sel = [] →
     selected_vertices_center getPoint sel
     = Raise (RuntimeError "We did not find anything selected."))
    ∧ (sel ≠ [] → collect_points getPoint sel = Ok [] →
       selected_vertices_center getPoint sel
       = Raise (RuntimeError "No mesh vertices selected currently."))
    ∧ (∀ e, sel ≠ [] → collect_points getPoint sel = Raise e →
            selected_vertices_center getPoint sel = Raise e)
    ∧ (∀ points, collect_points getPoint sel = Ok points → points ≠ [] →
                 selected_vertices_center getPoint sel = Ok (average points))
    ∧ ((∃ e, selected_vertices_center getPoint sel = Raise e)
       ↔ collect_points getPoint sel = Ok []
         ∨ ∃ e, collect_points getPoint sel = Raise e)
    ∧ RuntimeError "We did not find anything selected."
      ≠ RuntimeError "No mesh vertices selected currently."
    ∧ (∀ l1 l2 dag_path component,
         sel = l1 ++ l2 →
         sel ≠ [] →
         apiType component ≠ kMeshVertComponent →
         selected_vertices_center getPoint (l1 ++ Returns dag_path component :: l2)
         = selected_vertices_center getPoint sel).
  Proof.
    rewrite selected_vertices_center_run.
    refine (conj _ (conj _ (conj _ (conj _ (conj _ (conj _ _)))))).
    - by intros ->.
    - intros Hsel Hnone. destruct sel; [done |]. by rewrite Hnone.
    - intros e Hsel Hraise. destruct sel; [done |]. by rewrite Hraise.
    - intros points Hpoints Hsome. destruct sel as [| item rest].
      + cbn [collect_points] in Hpoints. by injection Hpoints as <-.
      + rewrite Hpoints. by destruct points.
    - destruct sel as [| item rest].
      + split; [by left | by eexists].
      + destruct (collect_points getPoint (item :: rest)) as [[| p ps] | e |].
        * split; [by left | by eexists].
        * split; [by intros [e ?] | by intros [? | [e ?]]].
        * split; [intros _; right; by eexists | by eexists].
        * split; [by intros [e ?] | by intros [? | [e ?]]].
    - discriminate.
    - intros l1 l2 dag_path component -> Hsel Hskip.
      rewrite selected_vertices_center_run, collect_points_skip by done.
      destruct l1 as [| item1 l1]; [| done].
      destruct l2 as [| item2 l2]; [done |]. done.
  Qed.
End CentroidErrors.

Lemma selected_vertices_center_unguarded_witness :
  CentroidJointCreation.selected_vertices_center cube_point sel_012_shader
  = Raise shader_error
  ∧ CentroidJointCreation.selected_vertices_center cube_point sel_012
    = Ok (CentroidJointCreation.average (map (cube_point "pCube1") [0; 1; 2])).
Proof.
  destruct (selected_vertices_center_unguarded cube_point sel_012 [] shader_error
              (map (cube_point "pCube1") [0; 1; 2]))
    as [Hraises Hskipped]; [reflexivity |].
  split; [exact Hraises |].
  rewrite <- (app_nil_r sel_012), <- (app_nil_r (map _ _)).
  apply Hskipped; [reflexivity | discriminate].
Defined.

Lemma selected_vertices_center_errors_witness :
  CentroidJointCreation.selected_vertices_center cube_point []
  = Raise (RuntimeError "We did not find anything selected.")
  ∧ CentroidJointCreation.selected_vertices_center cube_point sel_no_vertex
    = Raise (RuntimeError "No mesh vertices selected currently.")
  ∧ CentroidJointCreation.selected_vertices_center cube_point sel_012_shader
    = Raise shader_error
  ∧ CentroidJointCreation.selected_vertices_center cube_point sel_012
    = Ok (CentroidJointCreation.average (map (cube_point "pCube1") [0; 1; 2]))
  ∧ CentroidJointCreation.selected_vertices_center cube_point
      (sel_012
       ++ [CentroidJointCreation.Returns "pSphere1"
             (CentroidJointCreation.mkComponent CentroidJointCreation.kInvalid [])])
    = CentroidJointCreation.selected_vertices_center cube_point sel_012.
Proof.
  destruct (selected_vertices_center_errors cube_point [])
    as (Hempty & _).
  destruct (selected_vertices_center_errors cube_point sel_no_vertex)
    as (_ & Hnone & _).
  destruct (selected_vertices_center_errors cube_point sel_012_shader)
    as (_ & _ & Hraise & _).
  destruct (selected_vertices_center_errors cube_point sel_012)
    as (_ & _ & _ & Hsome & _ & _ & Hskip).
  refine (conj (Hempty _) (conj (Hnone _ _) (conj (Hraise _ _ _)
            (conj (Hsome _ _ _) (Hskip sel_012 [] _ _ _ _ _)))));
    try reflexivity; discriminate.
Defined.


(** ** centroid_joint_creation.py: the average *)

Section CentroidMean.
Import CentroidJointCreation.
Context {F : Type} `{Scalar F}.

  (** The accumulator of lines 36-38, coordinate by coordinate. *)
Lemma fold_point_add (points : list (MPoint F)) (center : MPoint F) :
    fold_left point_add points center
    = mkPoint (fold_left s_add (map px points) (px center))
              (fold_left s_add (map py points) (py center))
              (fold_left s_add (map pz points) (pz center)).
  Proof.
    revert center. induction points as [| p points IH]; intros center.
    - by destruct center.
    - cbn [fold_left map]. by rewrite IH.
  Qed.

Lemma average_centroid_spec (points : list (MPoint F)) :
    average points = centroid_spec points.
  Proof.
    unfold average, centroid_spec, mean_of, coordinate_sum, point_div.
    by rewrite fold_point_add.
  Qed.

Section ExactAddition.
Hypothesis add_assoc : ∀ x y z : F, s_add x (s_add y z) = s_add (s_add x y) z.
Hypothesis add_comm : ∀ x y : F, s_add x y = s_add y x.

Lemma point_add_swap (c p q : MPoint F) :
      point_add (point_add c p) q = point_add (point_add c q) p.
    Proof.
      unfold point_add. cbn [px py pz].
      f_equal; rewrite <- !add_assoc; f_equal; apply add_comm.
    Qed.

Lemma fold_point_add_perm (ps qs : list (MPoint F)) :
      ps ≡ₚ qs →
      ∀ center, fold_left point_add ps center = fold_left point_add qs center.
    Proof.
      induction 1 as [| p ps qs _ IH | p q ps | ps qs rs _ IH1 _ IH2];
        intros center; cbn [fold_left].
      - done.
      - apply IH.
      - by rewrite point_add_swap.
      - by rewrite IH1.
    Qed.

Lemma average_perm (ps qs : list (MPoint F)) :
      ps ≡ₚ qs → average ps = average qs.
    Proof.
      intros Hperm. unfold average.
      by rewrite (fold_point_add_perm ps qs Hperm), (Permutation_length Hperm).
    Qed.
End ExactAddition.

Variable getPoint : string → nat → MPoint F.

  (** C2 (as amended): for a selection that yields at least one vertex
      point, [selected_vertices_center] returns, for each coordinate, the sum
      of that coordinate over the points, accumulated from zero in selection
      order with the arithmetic of the point type, divided by the number of
      points.  Where that addition is associative and commutative, as in
      exact arithmetic, the result is the same for every order of the
      points. *)
Theorem selected_vertices_center_mean :
    (∀ sel points,
       collect_points getPoint sel = Ok points → points ≠ [] →
       selected_vertices_center getPoint sel = Ok (centroid_spec points))
    ∧ ((∀ x y z : F, s_add x (s_add y z) = s_add (s_add x y) z) →
       (∀ x y : F, s_add x y = s_add y x) →
       ∀ sel sel' points points',
         collect_points getPoint sel = Ok points →
         collect_points getPoint sel' = Ok points' →
         points ≠ [] →
         points ≡ₚ points' →
         selected_vertices_center getPoint sel'
         = selected_vertices_center getPoint sel).
  Proof.
    assert (Hrun : ∀ sel points,
              collect_points getPoint sel = Ok points → points ≠ [] →
              selected_vertices_center getPoint sel = Ok (average points)).
    { intros sel points Hpoints Hsome. unfold selected_vertices_center.
      rewrite Hpoints. destruct sel as [| item rest].
      - cbn [collect_points] in Hpoints. by injection Hpoints as <-.
      - cbn [length Nat.eqb]. by destruct points. }
    split.
    - intros sel points Hpoints Hsome.
      by rewrite (Hrun sel points), average_centroid_spec.
    - intros Hassoc Hcomm sel sel' points points' Hpoints Hpoints' Hsome Hperm.
      assert (Hsome' : points' ≠ []).
      { intros ->. by apply Permutation_nil_r in Hperm. }
      rewrite (Hrun sel points), (Hrun sel' points') by done.
      f_equal. symmetry. by apply average_perm.
  Qed.
End CentroidMean.

Lemma selected_vertices_center_mean_witness :
  CentroidJointCreation.selected_vertices_center exact_point sel_012
  = Ok (CentroidJointCreation.centroid_spec (map (exact_point "pCube1") [0; 1; 2]))
  ∧ CentroidJointCreation.selected_vertices_center exact_point sel_021
    = CentroidJointCreation.selected_vertices_center exact_point sel_012.
Proof.
  split.
  - apply (proj1 (selected_vertices_center_mean exact_point)).
    + reflexivity.
    + discriminate.
  - eapply (proj2 (selected_vertices_center_mean exact_point)).
    + intros x y z. apply Qcplus_assoc.
    + intros x y. apply Qcplus_comm.
    + reflexivity.
    + reflexivity.
    + discriminate.
    + apply perm_skip, perm_swap.
Defined.

(** C2 (as stated) fails in the doubles the host computes with: the same
    three vertices, selected in two orders, give two different results,
    [(1/3, 0, 0)] and [(0, 0, 0)]; adding 1 to 1e16 is absorbed by rounding,
    adding it after 1e16 and -1e16 have cancelled is not. *)
Lemma selected_vertices_center_order_matters :
  CentroidJointCreation.collect_points cube_point sel_012
  = Ok (map (cube_point "pCube1") [0; 1; 2])
  ∧ CentroidJointCreation.collect_points cube_point sel_021
    = Ok (map (cube_point "pCube1") [0; 2; 1])
  ∧ map (cube_point "pCube1") [0; 1; 2] ≡ₚ map (cube_point "pCube1") [0; 2; 1]
  ∧ CentroidJointCreation.selected_vertices_center cube_point sel_012
    = Ok (CentroidJointCreation.mkPoint (1 / 3)%float 0%float 0%float)
  ∧ CentroidJointCreation.selected_vertices_center cube_point sel_021
    = Ok (CentroidJointCreation.mkPoint 0%float 0%float 0%float)
  ∧ CentroidJointCreation.selected_vertices_center cube_point sel_021
    ≠ CentroidJointCreation.selected_vertices_center cube_point sel_012.
Proof.
  assert (H012 : CentroidJointCreation.selected_vertices_center cube_point sel_012
                 = Ok (CentroidJointCreation.mkPoint (1 / 3)%float 0%float 0%float))
    by (vm_compute; reflexivity).
  assert (H021 : CentroidJointCreation.selected_vertices_center cube_point sel_021
                 = Ok (CentroidJointCreation.mkPoint 0%float 0%float 0%float))
    by (vm_compute; reflexivity).
  refine (conj _ (conj _ (conj _ (conj H012 (conj H021 _))))).
  - reflexivity.
  - reflexivity.
  - apply perm_skip, perm_swap.
  - rewrite H012, H021. intros Heq.
    apply (f_equal (λ r, match r with
                         | Ok p => PrimFloat.eqb (CentroidJointCreation.px p) 0
                         | _ => false
                         end)) in Heq.
    vm_compute in Heq. discriminate Heq.
Qed.


(** ** centroid_joint_creation.py: joints *)

Lemma value_unbound :
  lookup_name CentroidJointCreation.module_globals "value" = None.
Proof. vm_compute. reflexivity. Qed.

(** Without a joint of the bare name and with [{name}_{sufix}] unused, the
    joint is created under that name, which is returned. *)
Lemma create_joint_plain (name sufix : string) (h : Host) :
  cmds_ls_joint (scene h) name = [] →
  scene h !! (name +:+ "_" +:+ sufix) = None →
  CentroidJointCreation.create_joint name sufix [] h
  = (Ok (name +:+ "_" +:+ sufix),
     mkHost (<[name +:+ "_" +:+ sufix := new_node joint None]> (scene h))
            [DagItem (name +:+ "_" +:+ sufix)]).
Proof.
  intros Hnodup Hfree. unfold CentroidJointCreation.create_joint.
  rewrite gets_bind, Hnodup.
  erewrite bind_ok by reflexivity.
  erewrite bind_ok; [reflexivity |].
  unfold cmds_joint. by rewrite host_name_unused.
Qed.

(** C4, what the code does instead: when a joint of the bare name exists
    (and the suffix is not empty), [create_joint] stops with [NameError] on
    the unbound name [value]; no name is returned and no joint is created. *)
Theorem create_joint_duplicate_name_error
    (name sufix : string) (position : list float) (h : Host) :
  cmds_ls_joint (scene h) name ≠ [] →
  sufix ≠ "" →
  CentroidJointCreation.create_joint name sufix position h
  = (Raise (NameError "value"), h).
Proof.
  intros Hdup Hsufix. unfold CentroidJointCreation.create_joint.
  rewrite gets_bind.
  destruct (cmds_ls_joint (scene h) name) as [| j js]; [done |].
  apply bind_raise.
  rewrite (proj2 (String.eqb_neq _ _)) by done.
  erewrite bind_ok by reflexivity.
  apply bind_raise. unfold load_global. by rewrite value_unbound.
Qed.

Lemma create_joint_duplicate_name_error_witness :
  CentroidJointCreation.create_joint "test" "jnt" [] joint_test_host
  = (Raise (NameError "value"), joint_test_host).
Proof.
  apply (create_joint_duplicate_name_error "test" "jnt" [] joint_test_host).
  - vm_compute. discriminate.
  - discriminate.
Defined.


(** ** The host's naming rule gives names that are not in use *)

Lemma decimal_nonempty (j : nat) : decimal j ≠ "".
Proof.
  intros Heq. change "" with (NilEmpty.string_of_uint Decimal.Nil) in Heq.
  apply string_of_uint_inj in Heq.
  assert (Hj : j = 0).
  { apply (f_equal Nat.of_uint) in Heq. by rewrite Unsigned.of_to in Heq. }
  subst j. discriminate Heq.
Qed.

Lemma append_empty_r (a b : string) : a +:+ b = a → b = "".
Proof.
  intros Heq. apply (f_equal String.length) in Heq.
  rewrite append_length in Heq. destruct b; [done | simpl in Heq; lia].
Qed.

Lemma host_candidate_inj (name : string) : Inj (=) (=) (host_candidate name).
Proof.
  intros [| i] [| j] Heq; simpl in Heq.
  - done.
  - symmetry in Heq. apply append_empty_r in Heq. by apply decimal_nonempty in Heq.
  - apply append_empty_r in Heq. by apply decimal_nonempty in Heq.
  - apply String.app_inj in Heq. by apply decimal_inj.
Qed.

Lemma host_name_loop_result (s : Scene) (name : string) (fuel k : nat) :
  objExists s (host_name_loop s name fuel k) = false
  ∨ ∀ j, k ≤ j < k + fuel → objExists s (name +:+ decimal j) = true.
Proof.
  revert k. induction fuel as [| fuel IH]; intros k; simpl.
  - right. intros j Hj. lia.
  - destruct (objExists s (name +:+ decimal k)) eqn:Hk; [| by left].
    destruct (IH (S k)) as [Hfresh | Hall]; [by left |].
    right. intros j Hj. destruct (decide (j = k)) as [-> | ?]; [done |].
    apply Hall. lia.
Qed.

Lemma host_name_fresh (s : Scene) (name : string) :
  objExists s (host_name s name) = false.
Proof.
  unfold host_name. destruct (objExists s name) eqn:Hname; [| done].
  destruct (host_name_loop_result s name (size s) 1) as [Hfresh | Hall]; [done |].
  exfalso. apply (names_not_exhausted s (host_candidate name) 0).
  - apply host_candidate_inj.
  - intros [| j] Hj; simpl; [done |]. apply Hall. lia.
Qed.


(** * Further properties of the handlers *)

(** ** Controller creation: the paths that create nothing *)

(** X1: in custom-name mode with a name that is blank or made of
    whitespace only, in the sense of [str.isspace] over all of Unicode,
    [create_blank_controller] returns early: the scene, the selection and
    the dialog are untouched and one warning is logged; the closing
    "Finished creating ctrls" is not. *)
Theorem create_blank_controller_blank_name (w : World) :
  ctrl_custom_name_checkbox (ui w) = true →
  whitespace_only (ctrl_name_field (ui w)) = true →
  RiggingToolsUI.create_blank_controller w
  = (Ok tt, mkWorld (ui w) (host w)
              (log w ++ [LogWarning "Button Controler name cannot be empty."])).
Proof.
  intros Hchecked Hblank%strip_empty_iff.
  unfold RiggingToolsUI.create_blank_controller.
  rewrite gets_bind. cbv zeta. rewrite gets_bind, Hchecked, gets_bind, Hblank.
  reflexivity.
Qed.

Lemma create_blank_controller_blank_name_witness :
  RiggingToolsUI.create_blank_controller
    (mkWorld (mkDialog None true wide_blank "" "") two_arms_host [])
  = (Ok tt, mkWorld (mkDialog None true wide_blank "" "") two_arms_host
              [LogWarning "Button Controler name cannot be empty."]).
Proof.
  apply (create_blank_controller_blank_name
           (mkWorld (mkDialog None true wide_blank "" "") two_arms_host [])).
  - reflexivity.
  - vm_compute. reflexivity.
Defined.

Lemma omap_dag_none (sel : list SelItem) :
  Forall (λ it, ∃ name, it = NonDagItem name) sel →
  omap (λ it, match it with
              | DagItem p => Some p
              | NonDagItem _ => None
              end) sel = [].
Proof.
  induction 1 as [| it sel [name ->] _ IH]; [done |]. cbn [omap list_omap].
  exact IH.
Qed.

(** X2: in selection mode, when nothing is selected or the selection holds
    no DAG object (only shaders and the like), [create_blank_controller]
    creates nothing: scene, selection and dialog are as before, no colour is
    needed, and the only trace is the closing record in the log. *)
Theorem create_blank_controller_nothing_to_do (w : World) :
  ctrl_custom_name_checkbox (ui w) = false →
  Forall (λ it, ∃ name, it = NonDagItem name) (activeSelection (host w)) →
  RiggingToolsUI.create_blank_controller w
  = (Ok tt, mkWorld (ui w) (host w)
              (log w ++ [LogInfo "Finished creating ctrls"])).
Proof.
  intros Hchecked Hsel.
  unfold RiggingToolsUI.create_blank_controller.
  rewrite gets_bind. cbv zeta. rewrite gets_bind, Hchecked.
  unfold RiggingToolsUI.get_selected_object_name.
  rewrite gets_bind, (omap_dag_none _ Hsel). cbn [for_each].
  erewrite bind_ok by reflexivity.
  rewrite restore_and_report_run. by destruct w as [d [s sel] lg].
Qed.

Lemma create_blank_controller_nothing_to_do_witness :
  RiggingToolsUI.create_blank_controller
    (mkWorld RiggingToolsUI.init (mkHost two_arms_scene [NonDagItem "lambert1"]) [])
  = (Ok tt, mkWorld RiggingToolsUI.init
              (mkHost two_arms_scene [NonDagItem "lambert1"])
              [LogInfo "Finished creating ctrls"]).
Proof.
  apply (create_blank_controller_nothing_to_do
           (mkWorld RiggingToolsUI.init
              (mkHost two_arms_scene [NonDagItem "lambert1"]) [])).
  - reflexivity.
  - repeat constructor. by exists "lambert1".
Defined.

(** ** The colour picker *)

(** A cancelled colour dialog (an invalid colour) leaves the whole state as
    it was; a valid colour replaces the stored one by its three channels,
    sets the swatch and adds one debug record. *)
Lemma get_picker_color_run (picked : QColor) (w : World) :
  RiggingToolsUI.get_picker_color picked w
  = (Ok tt,
     if isValid picked
     then mkWorld (mkDialog (Some (redF picked, greenF picked, blueF picked))
                     (ctrl_custom_name_checkbox (ui w))
                     (ctrl_name_field (ui w))
                     (rig_temp_name_field (ui w))
                     ("background-color: " +:+ color_name picked))
                  (host w)
                  (log w ++ [LogDebugStoredColor
                               (redF picked, greenF picked, blueF picked)])
     else w).
Proof.
  unfold RiggingToolsUI.get_picker_color.
  by destruct (isValid picked).
Qed.


(** ** The short name of a DAG path *)

Lemma split_char_nonempty (sep : ascii) (s : string) : split_char sep s ≠ [].
Proof.
  destruct s as [| c r]; simpl; [done |].
  destruct (Ascii.eqb c sep); [done |]. by destruct (split_char sep r).
Qed.

(** One segment when the separator does not occur, at least two when it
    does. *)
Lemma split_char_shape (sep : ascii) (s : string) :
  (contains_char sep s = false ∧ split_char sep s = [s])
  ∨ (contains_char sep s = true ∧ ∃ h x t, split_char sep s = h :: x :: t).
Proof.
  induction s as [| c r IH]; [by left |]. cbn [contains_char split_char].
  destruct (Ascii.eqb c sep); cbn [orb].
  - right. split; [done |].
    destruct (split_char sep r) as [| x t] eqn:Hsplit;
      [by apply split_char_nonempty in Hsplit |]. by exists "", x, t.
  - destruct IH as [[-> ->] | [-> (h & x & t & ->)]].
    + by left.
    + right. split; [done |]. by exists (String c h), x, t.
Qed.

Lemma split_last_cons (sep c : ascii) (r : string) :
  split_last sep (String c r)
  = if Ascii.eqb c sep || contains_char sep r
    then split_last sep r else String c r.
Proof.
  unfold split_last. cbn [split_char].
  destruct (Ascii.eqb c sep); cbn [orb].
  - destruct (split_char sep r) as [| x t] eqn:Hsplit;
      [by apply split_char_nonempty in Hsplit | done].
  - destruct (split_char_shape sep r) as [[-> ->] | [-> (h & x & t & ->)]]; done.
Qed.

Lemma append_cons (c : ascii) (a b : string) :
  String c a +:+ b = String c (a +:+ b).
Proof. reflexivity. Qed.

(** X3: the name a controller is built from (line 240,
    [controller_name.split("|")[-1]]) is the part of the path after its last
    separator: it contains no separator, the path is some prefix followed by
    it, that prefix being empty or ending with a separator, and a name
    without separator is taken as it is. *)
Theorem split_last_is_last_segment (sep : ascii) (s : string) :
  contains_char sep (split_last sep s) = false
  ∧ (∃ prefix, s = prefix +:+ split_last sep s
               ∧ (prefix = "" ∨ ∃ p, prefix = p +:+ String sep ""))
  ∧ (contains_char sep s = false → split_last sep s = s).
Proof.
  induction s as [| c r (IHno & (prefix & IHeq & IHprefix) & IHplain)].
  - refine (conj _ (conj _ _)); [done | | done].
    exists "". by split; [| left].
  - rewrite split_last_cons.
    destruct (Ascii.eqb c sep) eqn:Hc; cbn [orb].
    + apply Ascii.eqb_eq in Hc as ->.
      refine (conj IHno (conj _ _)).
      * exists (String sep prefix). split; [rewrite append_cons; f_equal; exact IHeq |].
        right. destruct IHprefix as [-> | [p ->]]; [by exists "" |].
        exists (String sep p). by rewrite append_cons.
      * cbn [contains_char]. by rewrite Ascii.eqb_refl.
    + destruct (contains_char sep r) eqn:Hr.
      * refine (conj IHno (conj _ _)).
        -- exists (String c prefix). split; [rewrite append_cons; f_equal; exact IHeq |].
           right. destruct IHprefix as [-> | [p ->]].
           ++ change (r = split_last sep r) in IHeq.
              rewrite <- IHeq in IHno. congruence.
           ++ exists (String c p). by rewrite append_cons.
        -- cbn [contains_char]. by rewrite Hc, Hr.
      * refine (conj _ (conj _ _)).
        -- cbn [contains_char]. by rewrite Hc, Hr.
        -- exists "". by split; [| left].
        -- done.
Qed.

Lemma split_last_is_last_segment_witness :
  split_last "|"%char "|grp|arm" = "arm"
  ∧ split_last "|"%char "arm" = "arm".
Proof.
  split; [reflexivity |].
  apply (split_last_is_last_segment "|"%char "arm"). reflexivity.
Defined.


(** ** create_joint: positions, the empty suffix, repeated calls *)

Lemma create_joint_names (name sufix : string) (position : list float) (h : Host) :
  cmds_ls_joint (scene h) name = [] →
  CentroidJointCreation.create_joint name sufix position h
  = (let j := host_name (scene h) (name +:+ "_" +:+ sufix) in
     let h1 := mkHost (<[j := new_node joint None]> (scene h)) [DagItem j] in
     match position with
     | [] => (Ok j, h1)
     | x :: y :: z :: _ =>
         (Ok j, mkHost (alter (set_translation (x, y, z)) j (scene h1)) [DagItem j])
     | _ => (Raise (IndexError "list index out of range"), h1)
     end).
Proof.
  intros Hnodup. unfold CentroidJointCreation.create_joint.
  rewrite gets_bind, Hnodup. erewrite bind_ok by reflexivity.
  erewrite bind_ok by reflexivity. cbv zeta.
  destruct position as [| x [| y [| z rest]]]; reflexivity.
Qed.

(** X4: when no joint of the bare name exists, [create_joint] creates one
    joint under the name the host gives for [{name}_{sufix}] and selects it.
    With no position the joint stays at the origin; with three or more
    coordinates it is moved to the first three and the rest is ignored; with
    one or two coordinates the joint has already been created when indexing
    the list raises [IndexError], so it stays in the scene, unmoved, and no
    name is returned. *)
Theorem create_joint_position (name sufix : string) (position : list float) (h : Host) :
  cmds_ls_joint (scene h) name = [] →
  ∃ j r h',
    CentroidJointCreation.create_joint name sufix position h = (r, h')
    ∧ j = host_name (scene h) (name +:+ "_" +:+ sufix)
    ∧ scene h !! j = None
    ∧ activeSelection h' = [DagItem j]
    ∧ (∀ n, n ≠ j → scene h' !! n = scene h !! n)
    ∧ match position with
      | [] =>
          r = Ok j ∧ scene h' !! j = Some (new_node joint None)
      | x :: y :: z :: _ =>
          r = Ok j
          ∧ scene h' !! j = Some (set_translation (x, y, z) (new_node joint None))
      | _ =>
          r = Raise (IndexError "list index out of range")
          ∧ scene h' !! j = Some (new_node joint None)
      end.
Proof.
  intros Hnodup. rewrite (create_joint_names _ _ _ _ Hnodup). cbv zeta.
  set (j := host_name (scene h) (name +:+ "_" +:+ sufix)).
  assert (Hfresh : scene h !! j = None) by apply objExists_false, host_name_fresh.
  destruct position as [| x [| y [| z rest]]]; eexists j, _, _;
    (split; [reflexivity |]); (split; [reflexivity |]); (split; [exact Hfresh |]);
    (split; [reflexivity |]); cbn [scene];
    (split; [intros n Hn; by rewrite ?lookup_alter_ne, lookup_insert_ne by done |]);
    split; try reflexivity;
    by rewrite ?lookup_alter_eq, lookup_insert_eq.
Qed.

Lemma create_joint_position_witness :
  CentroidJointCreation.create_joint "test" "jnt" [1; 2]%float empty_host
  = (Raise (IndexError "list index out of range"),
     mkHost (<["test_jnt" := new_node joint None]> ∅) [DagItem "test_jnt"])
  ∧ ∃ j r h',
      CentroidJointCreation.create_joint "test" "jnt" [1; 2; 3; 4]%float empty_host
      = (r, h')
      ∧ j = host_name (scene empty_host) ("test" +:+ "_" +:+ "jnt")
      ∧ scene empty_host !! j = None
      ∧ activeSelection h' = [DagItem j]
      ∧ (∀ n, n ≠ j → scene h' !! n = scene empty_host !! n)
      ∧ r = Ok j
      ∧ scene h' !! j
        = Some (set_translation (1, 2, 3)%float (new_node joint None)).
Proof.
  split; [reflexivity |].
  apply (create_joint_position "test" "jnt" [1; 2; 3; 4]%float empty_host).
  reflexivity.
Defined.

(** X5: with a joint of the bare name in the scene and an empty suffix,
    [create_joint] stops one line earlier than in the general case: line 62
    splits the name at the empty string, which raises [ValueError]; nothing
    is created. *)
Theorem create_joint_empty_suffix (name : string) (position : list float) (h : Host) :
  cmds_ls_joint (scene h) name ≠ [] →
  CentroidJointCreation.create_joint name "" position h
  = (Raise (ValueError "empty separator"), h).
Proof.
  intros Hdup. unfold CentroidJointCreation.create_joint.
  rewrite gets_bind.
  destruct (cmds_ls_joint (scene h) name) as [| j js]; [done |].
  apply bind_raise. apply bind_raise. reflexivity.
Qed.

Lemma create_joint_empty_suffix_witness :
  CentroidJointCreation.create_joint "test" "" [] joint_test_host
  = (Raise (ValueError "empty separator"), joint_test_host).
Proof.
  apply (create_joint_empty_suffix "test" [] joint_test_host).
  vm_compute. discriminate.
Defined.

Lemma cmds_ls_joint_insert_other (s : Scene) (name j : string) (nd : Node) :
  j ≠ name → cmds_ls_joint (<[j := nd]> s) name = cmds_ls_joint s name.
Proof. intros Hne. unfold cmds_ls_joint. by rewrite lookup_insert_ne. Qed.

(** X6: the duplicate check of line 60 looks for a joint with the bare name,
    not for [{name}_{sufix}]: a joint made by [create_joint] is therefore not
    found by a second call with the same arguments.  The second call does not
    reach the numbering branch, asks the host for the same name again and
    returns whatever different name the host gives; both joints are in the
    scene afterwards. *)
Theorem create_joint_twice (name sufix : string) (h : Host) :
  cmds_ls_joint (scene h) name = [] →
  ∃ j1 j2 h1 h2,
    CentroidJointCreation.create_joint name sufix [] h = (Ok j1, h1)
    ∧ CentroidJointCreation.create_joint name sufix [] h1 = (Ok j2, h2)
    ∧ j1 ≠ j2
    ∧ j2 = host_name (scene h1) (name +:+ "_" +:+ sufix)
    ∧ (∃ nd1, scene h2 !! j1 = Some nd1 ∧ nodeType nd1 = joint)
    ∧ (∃ nd2, scene h2 !! j2 = Some nd2 ∧ nodeType nd2 = joint).
Proof.
  intros Hnodup.
  set (j1 := host_name (scene h) (name +:+ "_" +:+ sufix)).
  set (h1 := mkHost (<[j1 := new_node joint None]> (scene h)) [DagItem j1]).
  set (j2 := host_name (scene h1) (name +:+ "_" +:+ sufix)).
  set (h2 := mkHost (<[j2 := new_node joint None]> (scene h1)) [DagItem j2]).
  assert (Hj1 : j1 ≠ name) by (by apply host_name_longer).
  assert (Hnodup1 : cmds_ls_joint (scene h1) name = []).
  { unfold h1. cbn [scene]. by rewrite cmds_ls_joint_insert_other. }
  assert (Hfresh2 : scene h1 !! j2 = None) by apply objExists_false, host_name_fresh.
  assert (Hne : j1 ≠ j2).
  { intros Heq. rewrite <- Heq in Hfresh2. unfold h1 in Hfresh2.
    cbn [scene] in Hfresh2. by rewrite lookup_insert_eq in Hfresh2. }
  exists j1, j2, h1, h2.
  split; [by rewrite create_joint_names |].
  split; [by rewrite create_joint_names |].
  split; [done |]. split; [done |]. unfold h2, h1. cbn [scene]. split.
  - rewrite lookup_insert_ne, lookup_insert_eq by done. by eexists.
  - rewrite lookup_insert_eq. by eexists.
Qed.

Lemma create_joint_twice_witness :
  ∃ j1 j2 h1 h2,
    CentroidJointCreation.create_joint "test" "jnt" [] empty_host = (Ok j1, h1)
    ∧ CentroidJointCreation.create_joint "test" "jnt" [] h1 = (Ok j2, h2)
    ∧ j1 ≠ j2
    ∧ j2 = host_name (scene h1) ("test" +:+ "_" +:+ "jnt")
    ∧ (∃ nd1, scene h2 !! j1 = Some nd1 ∧ nodeType nd1 = joint)
    ∧ (∃ nd2, scene h2 !! j2 = Some nd2 ∧ nodeType nd2 = joint).
Proof.
  apply (create_joint_twice "test" "jnt" empty_host). reflexivity.
Defined.


(** ** create_joint_at_cetered *)

(** X7: [create_joint_at_cetered] creates nothing unless the selection yields
    vertex points and no joint called [test] exists: the two selection
    errors, the exception of an item for which [getComponent] raises and the
    [NameError] of the duplicate branch leave the scene as it was.
    Otherwise exactly one joint is added, under the name the host gives for
    [test_jnt], placed at the average of the selected vertices (the fourth
    coordinate of the point is ignored), and selected. *)
Theorem create_joint_at_cetered_cases
    (getPoint : string → nat → CentroidJointCreation.MPoint float)
    (sel : list CentroidJointCreation.SelEntry) (w4 : float) (h : Host) :
  (sel = [] →
   CentroidJointCreation.create_joint_at_cetered getPoint sel w4 h
   = (Raise (RuntimeError "We did not find anything selected."), h))
  ∧ (∀ e, sel ≠ [] →
          CentroidJointCreation.collect_points getPoint sel = Raise e →
          CentroidJointCreation.create_joint_at_cetered getPoint sel w4 h
          = (Raise e, h))
  ∧ (sel ≠ [] → CentroidJointCreation.collect_points getPoint sel = Ok [] →
     CentroidJointCreation.create_joint_at_cetered getPoint sel w4 h
     = (Raise (RuntimeError "No mesh vertices selected currently."), h))
  ∧ (∀ points,
       CentroidJointCreation.collect_points getPoint sel = Ok points →
       points ≠ [] →
       cmds_ls_joint (scene h) "test" ≠ [] →
       CentroidJointCreation.create_joint_at_cetered getPoint sel w4 h
       = (Raise (NameError "value"), h))
  ∧ (∀ points,
       CentroidJointCreation.collect_points getPoint sel = Ok points →
       points ≠ [] →
       cmds_ls_joint (scene h) "test" = [] →
       ∃ j h',
         CentroidJointCreation.create_joint_at_cetered getPoint sel w4 h = (Ok tt, h')
         ∧ j = host_name (scene h) "test_jnt"
         ∧ scene h !! j = None
         ∧ scene h' !! j
           = Some (set_translation
                     (let c := CentroidJointCreation.average points in
                      (CentroidJointCreation.px c, CentroidJointCreation.py c,
                       CentroidJointCreation.pz c))
                     (new_node joint None))
         ∧ (∀ n, n ≠ j → scene h' !! n = scene h !! n)
         ∧ activeSelection h' = [DagItem j]).
Proof.
  unfold CentroidJointCreation.create_joint_at_cetered.
  rewrite selected_vertices_center_run.
  refine (conj _ (conj _ (conj _ (conj _ _)))).
  - by intros ->.
  - intros e Hsel Hraise. destruct sel as [| item rest]; [done |].
    by rewrite Hraise.
  - intros Hsel Hnone. destruct sel as [| item rest]; [done |]. by rewrite Hnone.
  - intros points Hpoints Hsome Hdup. destruct sel as [| item rest].
    { cbn [CentroidJointCreation.collect_points] in Hpoints.
      by injection Hpoints as <-. }
    rewrite Hpoints. destruct points as [| p ps]; [done |].
    apply bind_raise.
    unfold CentroidJointCreation.create_joint. rewrite gets_bind.
    destruct (cmds_ls_joint (scene h) "test"); [done |].
    apply bind_raise. erewrite bind_ok by reflexivity. by apply bind_raise.
  - intros points Hpoints Hsome Hnodup. destruct sel as [| item rest].
    { cbn [CentroidJointCreation.collect_points] in Hpoints.
      by injection Hpoints as <-. }
    rewrite Hpoints. destruct points as [| p ps]; [done |].
    set (j := host_name (scene h) "test_jnt").
    assert (Hfresh : scene h !! j = None) by apply objExists_false, host_name_fresh.
    eexists j, _. split.
    { erewrite bind_ok; [reflexivity |]. by rewrite create_joint_names. }
    cbn [scene activeSelection]. fold j.
    split; [done |]. split; [done |]. split; [| split; [| done]].
    + by rewrite lookup_alter_eq, lookup_insert_eq.
    + intros n Hn. by rewrite lookup_alter_ne, lookup_insert_ne.
Qed.

Lemma create_joint_at_cetered_cases_witness :
  CentroidJointCreation.create_joint_at_cetered cube_point [] 1%float empty_host
  = (Raise (RuntimeError "We did not find anything selected."), empty_host)
  ∧ CentroidJointCreation.create_joint_at_cetered cube_point sel_012_shader 1%float
      empty_host
    = (Raise shader_error, empty_host)
  ∧ CentroidJointCreation.create_joint_at_cetered cube_point sel_no_vertex 1%float
      empty_host
    = (Raise (RuntimeError "No mesh vertices selected currently."), empty_host)
  ∧ CentroidJointCreation.create_joint_at_cetered cube_point sel_012 1%float
      joint_test_host
    = (Raise (NameError "value"), joint_test_host)
  ∧ ∃ j h',
      CentroidJointCreation.create_joint_at_cetered cube_point sel_012 1%float
        empty_host = (Ok tt, h')
      ∧ j = host_name (scene empty_host) "test_jnt"
      ∧ scene empty_host !! j = None
      ∧ scene h' !! j
        = Some (set_translation
                  (let c := CentroidJointCreation.average
                              (map (cube_point "pCube1") [0; 1; 2]) in
                   (CentroidJointCreation.px c, CentroidJointCreation.py c,
                    CentroidJointCreation.pz c))
                  (new_node joint None))
      ∧ (∀ n, n ≠ j → scene h' !! n = scene empty_host !! n)
      ∧ activeSelection h' = [DagItem j].
Proof.
  destruct (create_joint_at_cetered_cases cube_point [] 1%float empty_host)
    as (Hempty & _).
  destruct (create_joint_at_cetered_cases cube_point sel_012_shader 1%float
              empty_host) as (_ & Hraise & _).
  destruct (create_joint_at_cetered_cases cube_point sel_no_vertex 1%float empty_host)
    as (_ & _ & Hnovertex & _).
  destruct (create_joint_at_cetered_cases cube_point sel_012 1%float joint_test_host)
    as (_ & _ & _ & Hdup & _).
  destruct (create_joint_at_cetered_cases cube_point sel_012 1%float empty_host)
    as (_ & _ & _ & _ & Hok).
  refine (conj (Hempty _) (conj (Hraise _ _ _) (conj (Hnovertex _ _)
            (conj (Hdup (map (cube_point "pCube1") [0; 1; 2]) _ _ _)
                  (Hok (map (cube_point "pCube1") [0; 1; 2]) _ _ _)))));
    try reflexivity; try discriminate.
Defined.


(** ** Colouring a controller *)

Lemma elem_of_listRelatives (s : Scene) (controller n : string) :
  n ∈ elements (dom (filter (λ kv, nodeType kv.2 = nurbsCurve
                                   ∧ parent kv.2 = Some controller) s))
  ↔ ∃ nd, s !! n = Some nd ∧ is_curve_of controller nd.
Proof.
  rewrite elem_of_elements, elem_of_dom. unfold is_curve_of. split.
  - intros [nd [Hnd Hp]%map_lookup_filter_Some]. by exists nd.
  - intros (nd & Hnd & Hp). exists nd. by apply map_lookup_filter_Some.
Qed.

(** The loop of lines 258-261 over a list of shapes. *)
Lemma paint_loop_run (rgb : Vec3) (shapes : list string) (w : World) :
  for_each shapes (λ shape,
    RiggingToolsUI.lift_host (update_node (set_overrideEnabled true) shape);;
    RiggingToolsUI.lift_host (update_node (set_overrideRGBColors true) shape);;
    RiggingToolsUI.lift_host (update_node (set_overrideColorRGB rgb) shape)) w
  = (Ok tt,
     mkWorld (ui w)
       (mkHost (foldl (λ s n, alter (paint rgb) n s) (scene (host w)) shapes)
               (activeSelection (host w)))
       (log w)).
Proof.
  revert w. induction shapes as [| shape shapes IH]; intros w.
  - by destruct w as [d [s sel] lg].
  - cbn [for_each foldl].
    erewrite bind_ok by reflexivity.
    rewrite IH. cbn [ui host log scene activeSelection].
    rewrite !alter_alter_eq. reflexivity.
Qed.

Lemma paint_paint (rgb : Vec3) (nd : Node) : paint rgb (paint rgb nd) = paint rgb nd.
Proof. reflexivity. Qed.

Lemma lookup_paint_all (rgb : Vec3) (shapes : list string) (s : Scene) (n : string) :
  foldl (λ s n, alter (paint rgb) n s) s shapes !! n
  = if decide (n ∈ shapes) then paint rgb <$> s !! n else s !! n.
Proof.
  revert s. induction shapes as [| shape shapes IH]; intros s; cbn [foldl].
  - by rewrite decide_False by apply not_elem_of_nil.
  - rewrite IH. destruct (decide (n = shape)) as [-> | Hne].
    + rewrite lookup_alter_eq, (decide_True _ _ (list_elem_of_here _ _)).
      destruct (decide (shape ∈ shapes)); [| done].
      destruct (s !! shape); [| done]. cbn. by rewrite paint_paint.
    + rewrite lookup_alter_ne by done.
      destruct (decide (n ∈ shapes)) as [Hin | Hout].
      * by rewrite decide_True by (by apply list_elem_of_further).
      * rewrite decide_False; [done |]. intros [? | ?]%elem_of_cons; done.
Qed.

(** With a colour stored and at least one curve shape below the controller,
    the colour step ends normally and paints exactly those shapes. *)
Lemma set_controller_color_painted (controller : string) (rgb : Vec3) (w : World) :
  ctrl_color (ui w) = Some rgb →
  (∃ n nd, scene (host w) !! n = Some nd ∧ is_curve_of controller nd) →
  ∃ w', RiggingToolsUI.set_controller_color controller w = (Ok tt, w')
        ∧ ui w' = ui w ∧ log w' = log w
        ∧ activeSelection (host w') = activeSelection (host w)
        ∧ ∀ n, scene (host w') !! n
               = (λ nd, if decide (is_curve_of controller nd)
                        then paint rgb nd else nd) <$> scene (host w) !! n.
Proof.
  intros Hcolor (n0 & nd0 & Hnd0 & Hcurve0).
  unfold RiggingToolsUI.set_controller_color.
  rewrite gets_bind, Hcolor, gets_bind. unfold cmds_listRelatives_nurbsCurve.
  set (shapes := elements _).
  assert (Hshapes : ∀ n, n ∈ shapes
                         ↔ ∃ nd, scene (host w) !! n = Some nd ∧ is_curve_of controller nd)
    by (intros n; apply elem_of_listRelatives).
  clearbody shapes.
  assert (Hne : shapes ≠ []).
  { intros Hnil. apply (not_elem_of_nil n0). rewrite <- Hnil.
    apply Hshapes. by exists nd0. }
  exists (mkWorld (ui w)
            (mkHost (foldl (λ s n, alter (paint rgb) n s) (scene (host w)) shapes)
                    (activeSelection (host w)))
            (log w)).
  split.
  { rewrite <- (paint_loop_run rgb shapes w). by destruct shapes. }
  cbn [ui log host activeSelection scene].
  split; [done |]. split; [done |]. split; [done |].
  intros m. rewrite lookup_paint_all.
  destruct (scene (host w) !! m) as [nd |] eqn:Hm; cbn.
  + destruct (decide (m ∈ shapes)) as [Hin | Hout];
      destruct (decide (is_curve_of controller nd)) as [Hc | Hnc]; try done.
    * apply Hshapes in Hin as (nd' & Hnd' & Hc'). congruence.
    * exfalso. apply Hout, Hshapes. by exists nd.
  + by destruct (decide (m ∈ shapes)).
Qed.

(** X8: with a colour stored, [set_controller_color] switches the colour
    override on, in RGB mode and with the stored colour, for every
    NURBS-curve shape directly below the controller, and changes nothing
    else: every other node, the selection, the dialog and the log are as
    before, and no node is added or removed.  When the controller has no such
    shape, [listRelatives] gives [None] and iterating it raises [TypeError]
    with the state untouched. *)
Theorem set_controller_color_effect (controller : string) (rgb : Vec3) (w : World) :
  ctrl_color (ui w) = Some rgb →
  ((∀ n nd, scene (host w) !! n = Some nd → ¬ is_curve_of controller nd) →
   RiggingToolsUI.set_controller_color controller w
   = (Raise (TypeError "'NoneType' object is not iterable"), w))
  ∧ ((∃ n nd, scene (host w) !! n = Some nd ∧ is_curve_of controller nd) →
     ∃ w', RiggingToolsUI.set_controller_color controller w = (Ok tt, w')
           ∧ ui w' = ui w ∧ log w' = log w
           ∧ activeSelection (host w') = activeSelection (host w)
           ∧ ∀ n, scene (host w') !! n
                  = (λ nd, if decide (is_curve_of controller nd)
                           then paint rgb nd else nd) <$> scene (host w) !! n).
Proof.
  intros Hcolor. split; [| by apply set_controller_color_painted].
  intros Hnone. unfold RiggingToolsUI.set_controller_color.
  rewrite gets_bind, Hcolor, gets_bind. unfold cmds_listRelatives_nurbsCurve.
  set (shapes := elements _).
  assert (Hshapes : ∀ n, n ∈ shapes
                         → ∃ nd, scene (host w) !! n = Some nd ∧ is_curve_of controller nd)
    by (intros n; apply elem_of_listRelatives).
  clearbody shapes. destruct shapes as [| n rest]; [done |]. exfalso.
  destruct (Hshapes n (list_elem_of_here _ _)) as (nd & Hnd & Hcurve).
  by apply (Hnone n nd).
Qed.

Lemma set_controller_color_effect_witness :
  ∃ w', RiggingToolsUI.set_controller_color "arm_ctrl" controller_world = (Ok tt, w')
        ∧ ui w' = ui controller_world ∧ log w' = log controller_world
        ∧ activeSelection (host w') = activeSelection (host controller_world)
        ∧ ∀ n, scene (host w') !! n
               = (λ nd, if decide (is_curve_of "arm_ctrl" nd)
                        then paint (1, 0, 0)%float nd else nd)
                 <$> scene (host controller_world) !! n.
Proof.
  apply (proj2 (set_controller_color_effect "arm_ctrl" (1, 0, 0)%float
                  controller_world eq_refl)).
  exists "arm_ctrlShape", (new_node nurbsCurve (Some "arm_ctrl")).
  split; [reflexivity | split; reflexivity].
Defined.


(** ** Names built by the code hold no path separator *)

Lemma contains_char_append (sep : ascii) (a b : string) :
  contains_char sep (a +:+ b) = contains_char sep a || contains_char sep b.
Proof.
  induction a as [| c a IH]; [done |].
  rewrite append_cons. cbn [contains_char]. by rewrite IH, orb_assoc.
Qed.

Lemma string_of_uint_no_bar (d : Decimal.uint) :
  contains_char "|"%char (NilEmpty.string_of_uint d) = false.
Proof. induction d; simpl; done. Qed.

Lemma decimal_no_bar (k : nat) : contains_char "|"%char (decimal k) = false.
Proof. apply string_of_uint_no_bar. Qed.

Lemma fmt_02d_no_bar (i : nat) : contains_char "|"%char (fmt_02d i) = false.
Proof. apply string_of_uint_no_bar. Qed.

Lemma host_name_loop_form (s : Scene) (name : string) (fuel k : nat) :
  ∃ j, host_name_loop s name fuel k = name +:+ decimal j.
Proof.
  revert k. induction fuel as [| fuel IH]; intros k; simpl; [by exists k |].
  destruct (objExists s (name +:+ decimal k)); [apply IH | by exists k].
Qed.

Lemma host_name_no_bar (s : Scene) (name : string) :
  contains_char "|"%char name = false →
  contains_char "|"%char (host_name s name) = false.
Proof.
  intros Hname. unfold host_name. destruct (objExists s name); [| done].
  destruct (host_name_loop_form s name (size s) 1) as [j ->].
  by rewrite contains_char_append, Hname, decimal_no_bar.
Qed.

Lemma unique_ctrl_loop_form (s : Scene) (base_name name : string) (fuel i : nat) :
  RiggingToolsUI.unique_ctrl_loop s base_name fuel i = Some name →
  ∃ k, name = numbered_ctrl_name base_name k.
Proof.
  revert i. induction fuel as [| fuel IH]; intros i; simpl; [done |].
  destruct (objExists s _); cbn [negb]; [apply IH |].
  intros [= <-]. by exists i.
Qed.

Lemma unique_ctrl_name_no_bar (s : Scene) (base_name name : string) :
  contains_char "|"%char base_name = false →
  RiggingToolsUI.unique_ctrl_name s base_name = Some name →
  contains_char "|"%char name = false.
Proof.
  intros Hbase. unfold RiggingToolsUI.unique_ctrl_name.
  destruct (objExists s _); cbn [negb].
  - intros [k ->]%unique_ctrl_loop_form. unfold numbered_ctrl_name.
    by rewrite !contains_char_append, Hbase, fmt_02d_no_bar.
  - intros [= <-]. by rewrite contains_char_append, Hbase.
Qed.

Lemma split_last_plain (s : string) :
  contains_char "|"%char s = false → split_last "|"%char s = s.
Proof.
  induction s as [| c r IH]; [done |]. rewrite split_last_cons.
  cbn [contains_char]. by intros ->.
Qed.

Lemma split_last_no_bar (s : string) :
  contains_char "|"%char (split_last "|"%char s) = false.
Proof.
  induction s as [| c r IH]; [done |]. rewrite split_last_cons.
  destruct (Ascii.eqb c "|" || contains_char "|" r) eqn:Hc; [done |].
  exact Hc.
Qed.


(** ** A successful controller creation *)

(** Painting the curves of [circle] in a scene that holds the new circle, its
    shape and its offset group on top of [s] gives [controller_scene]. *)
Lemma painted_scene_eq (s s4 s5 : Scene) (circle shape offset : string)
    (rgb pos : Vec3) :
  scene_wf s →
  s !! circle = None →
  circle ≠ shape → circle ≠ offset → shape ≠ offset →
  s4 !! circle = Some (set_parent (Some offset) (new_node transform None)) →
  s4 !! shape = Some (new_node nurbsCurve (Some circle)) →
  s4 !! offset = Some (set_translation pos (new_node transform None)) →
  (∀ n, n ≠ circle → n ≠ shape → n ≠ offset → s4 !! n = s !! n) →
  (∀ n, s5 !! n = (λ nd, if decide (is_curve_of circle nd)
                         then paint rgb nd else nd) <$> s4 !! n) →
  s5 = controller_scene s circle shape offset rgb pos.
Proof.
  intros Hwf Hfree Hcs Hco Hso Hcircle Hshape Hoffset Hold Hpaint.
  apply map_eq. intros n. rewrite Hpaint. unfold controller_scene.
  destruct (decide (n = circle)) as [-> | Hnc].
  { rewrite Hcircle, lookup_insert_eq. cbn.
    rewrite decide_False; [done |]. by intros [? _]. }
  rewrite lookup_insert_ne by done.
  destruct (decide (n = shape)) as [-> | Hns].
  { rewrite Hshape, lookup_insert_eq. cbn. by rewrite decide_True. }
  rewrite lookup_insert_ne by done.
  destruct (decide (n = offset)) as [-> | Hno].
  { rewrite Hoffset, lookup_insert_eq. cbn.
    rewrite decide_False; [done |]. by intros [? _]. }
  rewrite lookup_insert_ne, Hold by done.
  destruct (s !! n) as [nd |] eqn:Hn; [| done]. cbn.
  rewrite decide_False; [done |]. intros [_ Hparent].
  destruct (Hwf n nd circle Hn Hparent) as [x Hx]. congruence.
Qed.

Lemma match_objects_space_run (target_object move_object : string)
    (nd : Node) (w : World) :
  scene (host w) !! split_last "|"%char target_object = Some nd →
  contains_char "|"%char move_object = false →
  is_Some (scene (host w) !! move_object) →
  RiggingToolsUI.match_objects_space target_object move_object w
  = (Ok tt,
     mkWorld (ui w)
       (mkHost (alter (set_translation (translation nd)) move_object (scene (host w)))
               (activeSelection (host w)))
       (log w)).
Proof.
  intros Htarget Hplain [md Hmove].
  unfold RiggingToolsUI.match_objects_space.
  erewrite bind_ok.
  2:{ apply lift_host_ok. unfold resolve_dag, objExists. by rewrite Htarget. }
  rewrite gets_bind. cbn [scene host]. rewrite Htarget. cbn [from_option].
  erewrite bind_ok.
  2:{ apply lift_host_ok. unfold resolve_dag, objExists. cbn [scene host].
      rewrite (split_last_plain _ Hplain), Hmove. by destruct w as [d [s sel] lg]. }
  reflexivity.
Qed.

Lemma create_curve_offset_group_run (controller_name : string) (rgb : Vec3) (w : World) :
  ctrl_color (ui w) = Some rgb →
  scene_wf (scene (host w)) →
  (ctrl_custom_name_checkbox (ui w) = false →
   is_Some (scene (host w) !! split_last "|"%char controller_name)) →
  ∃ circle shape offset,
    RiggingToolsUI.unique_ctrl_name (scene (host w))
      (split_last "|"%char controller_name) = Some circle
    ∧ scene (host w) !! circle = None
    ∧ scene (host w) !! shape = None
    ∧ scene (host w) !! offset = None
    ∧ circle ≠ shape ∧ circle ≠ offset ∧ shape ≠ offset
    ∧ RiggingToolsUI.create_curve_offset_group controller_name w
      = (Ok tt,
         mkWorld (ui w)
           (mkHost
              (controller_scene (scene (host w)) circle shape offset rgb
                 (if ctrl_custom_name_checkbox (ui w) then origin
                  else from_option translation origin
                         (scene (host w) !! split_last "|"%char controller_name)))
              [DagItem offset])
           (log w)).
Proof.
  intros Hcolor Hwf Htarget.
  set (s := scene (host w)) in *.
  set (base := split_last "|"%char controller_name) in *.
  destruct (unique_ctrl_name_returns s base) as (circle & Hunique & Hfree).
  set (s1 := <[circle := new_node transform None]> s).
  set (shape := host_name s1 (circle +:+ "Shape")).
  set (s2 := <[shape := new_node nurbsCurve (Some circle)]> s1).
  set (offset := host_name s2 (circle +:+ "_offset")).
  assert (Hshape1 : s1 !! shape = None) by apply objExists_false, host_name_fresh.
  assert (Hoffset2 : s2 !! offset = None) by apply objExists_false, host_name_fresh.
  assert (Hcs : circle ≠ shape).
  { intros Heq. rewrite <- Heq in Hshape1. unfold s1 in Hshape1.
    by rewrite lookup_insert_eq in Hshape1. }
  assert (Hso : shape ≠ offset).
  { intros Heq. rewrite <- Heq in Hoffset2. unfold s2 in Hoffset2.
    by rewrite lookup_insert_eq in Hoffset2. }
  assert (Hco : circle ≠ offset).
  { intros Heq. rewrite <- Heq in Hoffset2. unfold s2, s1 in Hoffset2.
    by rewrite lookup_insert_ne, lookup_insert_eq in Hoffset2. }
  assert (Hshape : s !! shape = None).
  { unfold s1 in Hshape1. by rewrite lookup_insert_ne in Hshape1. }
  assert (Hoffset : s !! offset = None).
  { unfold s2, s1 in Hoffset2. by rewrite !lookup_insert_ne in Hoffset2. }
  exists circle, shape, offset.
  do 7 (split; [done |]).
  set (s3 := alter (set_parent (Some offset)) circle
               (<[offset := new_node transform None]> s2)).
  set (w2 := mkWorld (ui w) (mkHost s2 [DagItem circle]) (log w)).
  set (w3 := mkWorld (ui w) (mkHost s3 [DagItem offset]) (log w)).
  assert (H1 : RiggingToolsUI.call_unique_ctrl_name base w = (Ok circle, w)).
  { unfold RiggingToolsUI.call_unique_ctrl_name. fold s. by rewrite Hunique. }
  assert (H2 : RiggingToolsUI.lift_host (cmds_circle circle) w = (Ok circle, w2)).
  { apply lift_host_ok. unfold cmds_circle. fold s.
    by rewrite (host_name_unused s circle Hfree). }
  assert (Hcp : common_parent s2 [circle] = None).
  { unfold common_parent. cbn [forallb]. unfold s2, s1.
    by rewrite lookup_insert_ne, lookup_insert_eq. }
  assert (H3 : RiggingToolsUI.lift_host
                 (cmds_group [circle] false false (circle +:+ "_offset")) w2
               = (Ok offset, w3)).
  { unfold RiggingToolsUI.lift_host, cmds_group. cbn [scene host ui log w2].
    fold offset. by rewrite Hcp. }
  assert (Hsc : shape ≠ circle) by (by apply ne_sym).
  assert (Hos : offset ≠ shape) by (by apply ne_sym).
  assert (Hoc : offset ≠ circle) by (by apply ne_sym).
  assert (L3c : s3 !! circle = Some (set_parent (Some offset) (new_node transform None))).
  { unfold s3, s2, s1. by map_lookups. }
  assert (L3s : s3 !! shape = Some (new_node nurbsCurve (Some circle))).
  { unfold s3, s2. by map_lookups. }
  assert (L3o : s3 !! offset = Some (new_node transform None)).
  { unfold s3. by map_lookups. }
  assert (L3n : ∀ n, n ≠ circle → n ≠ shape → n ≠ offset → s3 !! n = s !! n).
  { intros n ?%ne_sym ?%ne_sym ?%ne_sym. unfold s3, s2, s1. by map_lookups. }
  unfold RiggingToolsUI.create_curve_offset_group. cbv zeta. fold base.
  rewrite (bind_ok _ _ _ _ _ H1), (bind_ok _ _ _ _ _ H2), (bind_ok _ _ _ _ _ H3).
  rewrite gets_bind. cbn [ui w3].
  destruct (ctrl_custom_name_checkbox (ui w)) eqn:Hchecked; cbn [negb].
  - erewrite bind_ok by reflexivity.
    destruct (set_controller_color_painted circle rgb w3 Hcolor)
      as (w' & Hrun & Hui & Hlog & Hsel & Hpaint).
    { exists shape, (new_node nurbsCurve (Some circle)). by split. }
    rewrite Hrun. f_equal. destruct w' as [d' [s' sel'] lg'].
    cbn [ui log host scene activeSelection w3] in *. subst d' lg' sel'.
    do 2 f_equal.
    apply (painted_scene_eq s s3 s' circle shape offset rgb origin); done.
  - destruct (Htarget eq_refl) as [nd Hnd]. rewrite Hnd. cbn [from_option].
    assert (Hbase3 : s3 !! base = Some nd).
    { rewrite L3n; [done | | |]; intros ->; congruence. }
    assert (Hplain : contains_char "|"%char offset = false).
    { apply host_name_no_bar. rewrite contains_char_append.
      rewrite (unique_ctrl_name_no_bar s base circle); [done | | done].
      apply split_last_no_bar. }
    erewrite bind_ok.
    2:{ apply (match_objects_space_run controller_name offset nd w3);
          [exact Hbase3 | exact Hplain | eexists; exact L3o]. }
    cbn [ui host scene log activeSelection w3].
    set (s4 := alter (set_translation (translation nd)) offset s3).
    set (w4 := mkWorld (ui w) (mkHost s4 [DagItem offset]) (log w)).
    destruct (set_controller_color_painted circle rgb w4 Hcolor)
      as (w' & Hrun & Hui & Hlog & Hsel & Hpaint).
    { exists shape, (new_node nurbsCurve (Some circle)). split; [| done].
      unfold w4, s4. cbn [host scene]. by rewrite lookup_alter_ne. }
    rewrite Hrun. f_equal. destruct w' as [d' [s' sel'] lg'].
    cbn [ui log host scene activeSelection w4] in *. subst d' lg' sel'.
    do 2 f_equal.
    apply (painted_scene_eq s s4 s' circle shape offset rgb (translation nd));
      try done; unfold s4.
    + by rewrite lookup_alter_ne.
    + by rewrite lookup_alter_ne.
    + by rewrite lookup_alter_eq, L3o.
    + intros n ? ? ?. by rewrite lookup_alter_ne, L3n.
Qed.


Section ControllerScene.
Variables (s : Scene) (circle shape offset : string) (rgb pos : Vec3).
Hypothesis Hcircle : s !! circle = None.
Hypothesis Hshape : s !! shape = None.
Hypothesis Hoffset : s !! offset = None.
Hypothesis Hcs : circle ≠ shape.
Hypothesis Hco : circle ≠ offset.
Hypothesis Hso : shape ≠ offset.

Lemma controller_scene_lookup :
    controller_scene s circle shape offset rgb pos !! circle
    = Some (set_parent (Some offset) (new_node transform None))
    ∧ controller_scene s circle shape offset rgb pos !! shape
      = Some (paint rgb (new_node nurbsCurve (Some circle)))
    ∧ controller_scene s circle shape offset rgb pos !! offset
      = Some (set_translation pos (new_node transform None))
    ∧ (∀ n, n ≠ circle → n ≠ shape → n ≠ offset →
            controller_scene s circle shape offset rgb pos !! n = s !! n).
  Proof.
    unfold controller_scene. refine (conj _ (conj _ (conj _ _))).
    - apply lookup_insert_eq.
    - rewrite lookup_insert_ne by done. apply lookup_insert_eq.
    - rewrite !lookup_insert_ne by done. apply lookup_insert_eq.
    - intros n ?%ne_sym ?%ne_sym ?%ne_sym. by rewrite !lookup_insert_ne by done.
  Qed.

  (** The nodes that were there are not touched. *)
Lemma controller_scene_old (n : string) :
    is_Some (s !! n) →
    controller_scene s circle shape offset rgb pos !! n = s !! n.
  Proof.
    intros [nd Hn]. destruct controller_scene_lookup as (_ & _ & _ & Hold).
    apply Hold; intros ->; congruence.
  Qed.

Lemma controller_scene_size :
    size (controller_scene s circle shape offset rgb pos) = size s + 3.
  Proof.
    unfold controller_scene.
    rewrite !map_size_insert_None; [lia | done | | ].
    - by rewrite lookup_insert_ne by (by apply ne_sym).
    - by rewrite !lookup_insert_ne by (by apply ne_sym).
  Qed.

Lemma controller_scene_wf :
    scene_wf s → scene_wf (controller_scene s circle shape offset rgb pos).
  Proof.
    intros Hwf n nd p Hn Hp.
    destruct controller_scene_lookup as (Lc & Ls & Lo & Lold).
    destruct (decide (n = circle)) as [-> | Hnc].
    { rewrite Lc in Hn. injection Hn as <-. injection Hp as <-. by rewrite Lo. }
    destruct (decide (n = shape)) as [-> | Hns].
    { rewrite Ls in Hn. injection Hn as <-. injection Hp as <-. by rewrite Lc. }
    destruct (decide (n = offset)) as [-> | Hno].
    { rewrite Lo in Hn. by injection Hn as <-. }
    rewrite Lold in Hn by done.
    destruct (Hwf n nd p Hn Hp) as [x Hx].
    rewrite controller_scene_old; by eexists.
  Qed.
End ControllerScene.


(** ** Controllers for a whole selection *)

Lemma for_each_controllers (rgb : Vec3) (objs : list string) :
  ∀ w : World,
    ctrl_color (ui w) = Some rgb →
    ctrl_custom_name_checkbox (ui w) = false →
    scene_wf (scene (host w)) →
    Forall (λ p, is_Some (scene (host w) !! split_last "|"%char p)) objs →
    ∃ (s' : Scene) (sel' : list SelItem),
      for_each objs RiggingToolsUI.create_curve_offset_group w
      = (Ok tt, mkWorld (ui w) (mkHost s' sel') (log w))
      ∧ scene_wf s'
      ∧ size s' = size (scene (host w)) + 3 * length objs
      ∧ (∀ n, is_Some (scene (host w) !! n) → s' !! n = scene (host w) !! n)
      ∧ Forall (controller_for (scene (host w)) s' rgb) objs.
Proof.
  induction objs as [| p objs IH]; intros w Hcolor Hmode Hwf Hex.
  - exists (scene (host w)), (activeSelection (host w)).
    refine (conj _ (conj Hwf (conj _ (conj _ _)))).
    + by destruct w as [d [s sel] lg].
    + cbn [length]. lia.
    + done.
    + constructor.
  - apply Forall_cons in Hex as [Hp Hex].
    destruct (create_curve_offset_group_run p rgb w Hcolor Hwf (λ _, Hp))
      as (circle & shape & offset & _ & Fc & Fs & Fo & Dcs & Dco & Dso & Hrun).
    rewrite Hmode in Hrun.
    set (s := scene (host w)) in *.
    set (pos := from_option translation origin (s !! split_last "|"%char p)) in *.
    set (s1 := controller_scene s circle shape offset rgb pos) in *.
    set (w1 := mkWorld (ui w) (mkHost s1 [DagItem offset]) (log w)) in *.
    pose proof (controller_scene_old s circle shape offset rgb pos
                  Fc Fs Fo Dcs Dco Dso) as Hold1.
    pose proof (controller_scene_lookup s circle shape offset rgb pos
                  Dcs Dco Dso) as (Lc & Ls & Lo & _).
    fold s1 in Hold1, Lc, Ls, Lo.
    destruct (IH w1) as (s' & sel' & Hrest & Hwf' & Hsize & Hold & Hall).
    + exact Hcolor.
    + exact Hmode.
    + apply controller_scene_wf; assumption.
    + cbn [scene host w1]. eapply Forall_impl; [exact Hex |].
      intros q Hq. cbn beta in Hq |- *. by rewrite Hold1.
    + cbn [scene host ui log w1] in Hrest, Hsize, Hold, Hall.
      exists s', sel'. refine (conj _ (conj Hwf' (conj _ (conj _ _)))).
      * cbn [for_each]. erewrite bind_ok by exact Hrun. exact Hrest.
      * rewrite Hsize. unfold s1.
        rewrite controller_scene_size by assumption. cbn [length]. lia.
      * intros n Hn. rewrite Hold by (by rewrite Hold1). by apply Hold1.
      * constructor.
        -- exists circle, shape, offset.
           refine (conj Fc (conj Fs (conj Fo (conj _ (conj _ _))))).
           ++ rewrite Hold by (rewrite Lc; by eexists). exact Lc.
           ++ rewrite Hold by (rewrite Ls; by eexists). exact Ls.
           ++ rewrite Hold by (rewrite Lo; by eexists). exact Lo.
        -- apply Forall_forall. intros q Hq.
           rewrite Forall_forall in Hall, Hex.
           destruct (Hall q Hq) as (c & sh & o & Gc & Gs & Go & Kc & Ks & Ko).
           exists c, sh, o.
           assert (Hnew : ∀ n, s1 !! n = None → s !! n = None).
           { intros n Hn. destruct (s !! n) as [nd |] eqn:E; [| done].
             rewrite Hold1 in Hn by (by eexists). congruence. }
           refine (conj (Hnew _ Gc) (conj (Hnew _ Gs) (conj (Hnew _ Go)
                     (conj Kc (conj Ks _))))).
           rewrite Ko. by rewrite Hold1 by (apply Hex, Hq).
Qed.


(** The run of [create_blank_controller] in custom-name mode. *)
Lemma create_blank_controller_custom_run (rgb : Vec3) (w : World) :
  ctrl_custom_name_checkbox (ui w) = true →
  strip (ctrl_name_field (ui w)) ≠ "" →
  ctrl_color (ui w) = Some rgb →
  scene_wf (scene (host w)) →
  ∃ circle shape offset : string,
    RiggingToolsUI.unique_ctrl_name (scene (host w))
      (split_last "|"%char (strip (ctrl_name_field (ui w)))) = Some circle
    ∧ scene (host w) !! circle = None
    ∧ scene (host w) !! shape = None
    ∧ scene (host w) !! offset = None
    ∧ circle ≠ shape ∧ circle ≠ offset ∧ shape ≠ offset
    ∧ RiggingToolsUI.create_blank_controller w
      = (Ok tt,
         mkWorld (ui w)
           (mkHost (controller_scene (scene (host w)) circle shape offset
                      rgb origin)
                   (activeSelection (host w)))
           (log w ++ [LogInfo "Finished creating ctrls"])).
Proof.
  intros Hmode Hname Hcolor Hwf.
  destruct (create_curve_offset_group_run (strip (ctrl_name_field (ui w)))
              rgb w Hcolor Hwf)
    as (circle & shape & offset & Hu & Fc & Fs & Fo & Dcs & Dco & Dso & Hrun).
  { rewrite Hmode. discriminate. }
  rewrite Hmode in Hrun.
  exists circle, shape, offset.
  refine (conj Hu (conj Fc (conj Fs (conj Fo (conj Dcs (conj Dco (conj Dso _))))))).
  unfold RiggingToolsUI.create_blank_controller.
  rewrite !gets_bind, Hmode, gets_bind.
  apply String.eqb_neq in Hname. rewrite Hname.
  erewrite bind_ok by exact Hrun.
  by rewrite restore_and_report_run.
Qed.

(** X9: with "Create Custom Name" ticked, a name that is not blank, a
    colour stored and a well-formed scene, [create_blank_controller] ends
    normally and adds exactly three nodes whose names were free: the circle,
    called by the first free controller name for the last [|]-segment of the
    stripped name, its shape painted with the stored colour, and the offset
    group above the circle, left at the origin; every other node, the
    selection and the dialog are as before, and the log gains the final
    record. *)
Theorem create_blank_controller_custom (rgb : Vec3) (w : World) :
  ctrl_custom_name_checkbox (ui w) = true →
  strip (ctrl_name_field (ui w)) ≠ "" →
  ctrl_color (ui w) = Some rgb →
  scene_wf (scene (host w)) →
  ∃ circle shape offset : string,
    RiggingToolsUI.unique_ctrl_name (scene (host w))
      (split_last "|"%char (strip (ctrl_name_field (ui w)))) = Some circle
    ∧ scene (host w) !! circle = None
    ∧ scene (host w) !! shape = None
    ∧ scene (host w) !! offset = None
    ∧ circle ≠ shape ∧ circle ≠ offset ∧ shape ≠ offset
    ∧ RiggingToolsUI.create_blank_controller w
      = (Ok tt,
         mkWorld (ui w)
           (mkHost (controller_scene (scene (host w)) circle shape offset
                      rgb origin)
                   (activeSelection (host w)))
           (log w ++ [LogInfo "Finished creating ctrls"])).
Proof. apply create_blank_controller_custom_run. Qed.

Lemma create_blank_controller_custom_witness :
  ∃ circle shape offset : string,
    RiggingToolsUI.unique_ctrl_name (scene (host controller_world))
      (split_last "|"%char (strip (ctrl_name_field (ui controller_world))))
    = Some circle
    ∧ scene (host controller_world) !! circle = None
    ∧ scene (host controller_world) !! shape = None
    ∧ scene (host controller_world) !! offset = None
    ∧ circle ≠ shape ∧ circle ≠ offset ∧ shape ≠ offset
    ∧ RiggingToolsUI.create_blank_controller controller_world
      = (Ok tt,
         mkWorld (ui controller_world)
           (mkHost (controller_scene (scene (host controller_world))
                      circle shape offset (1, 0, 0)%float origin)
                   (activeSelection (host controller_world)))
           (log controller_world ++ [LogInfo "Finished creating ctrls"])).
Proof.
  apply (create_blank_controller_custom (1, 0, 0)%float controller_world).
  - reflexivity.
  - vm_compute. discriminate.
  - reflexivity.
  - intros n nd p Hn Hp.
    refine (bool_decide_unpack _ _).
    revert Hn Hp. unfold controller_world. cbn [scene host].
    destruct (decide (n = "arm_ctrl")) as [-> | ?];
      [rewrite lookup_insert_eq; intros [= <-]; discriminate |].
    rewrite lookup_insert_ne by done.
    destruct (decide (n = "arm_ctrlShape")) as [-> | ?];
      [rewrite lookup_insert_eq; intros [= <-] [= <-]; vm_compute; exact I |].
    rewrite lookup_insert_ne by done.
    destruct (decide (n = "leg_ctrlShape")) as [-> | ?];
      [rewrite lookup_insert_eq; intros [= <-] [= <-]; vm_compute; exact I |].
    rewrite lookup_insert_ne by done.
    destruct (decide (n = "leg_ctrl")) as [-> | ?];
      [rewrite lookup_insert_eq; intros [= <-]; discriminate |].
    rewrite lookup_insert_ne by done. by rewrite lookup_empty.
Defined.

(** X10: with "Create Custom Name" not ticked, a colour stored, a
    well-formed scene and every selected DAG object in the scene,
    [create_blank_controller] ends normally whatever the number of selected
    objects; the scene stays well formed and grows by exactly three nodes
    for each selected DAG object, counted with repetition; no node that was
    there changes; every selected DAG object gets a controller, that is a
    circle under an offset group placed where the object is, with a shape of
    the stored colour, under names that were free; the selection is the one
    found at the start, the dialog is untouched and the log gains the final
    record only. *)
Theorem create_blank_controller_selection (rgb : Vec3) (w : World) :
  ctrl_custom_name_checkbox (ui w) = false →
  ctrl_color (ui w) = Some rgb →
  scene_wf (scene (host w)) →
  (∀ p, p ∈ dag_paths (activeSelection (host w)) →
        is_Some (scene (host w) !! split_last "|"%char p)) →
  ∃ s' : Scene,
    RiggingToolsUI.create_blank_controller w
    = (Ok tt,
       mkWorld (ui w) (mkHost s' (activeSelection (host w)))
         (log w ++ [LogInfo "Finished creating ctrls"]))
    ∧ scene_wf s'
    ∧ size s'
      = size (scene (host w)) + 3 * length (dag_paths (activeSelection (host w)))
    ∧ (∀ n, is_Some (scene (host w) !! n) → s' !! n = scene (host w) !! n)
    ∧ (∀ p, p ∈ dag_paths (activeSelection (host w)) →
            controller_for (scene (host w)) s' rgb p).
Proof.
  intros Hmode Hcolor Hwf Hex.
  destruct (for_each_controllers rgb (dag_paths (activeSelection (host w))) w
              Hcolor Hmode Hwf)
    as (s' & sel' & Hrun & Hwf' & Hsize & Hold & Hall).
  { by apply Forall_forall. }
  exists s'. refine (conj _ (conj Hwf' (conj Hsize (conj Hold _)))).
  - unfold RiggingToolsUI.create_blank_controller.
    rewrite !gets_bind, Hmode.
    unfold RiggingToolsUI.get_selected_object_name. rewrite gets_bind.
    fold (dag_paths (activeSelection (host w))).
    erewrite bind_ok by exact Hrun.
    by rewrite restore_and_report_run.
  - by apply Forall_forall.
Qed.

Lemma create_blank_controller_selection_witness :
  ∃ s' : Scene,
    RiggingToolsUI.create_blank_controller two_selected_world
    = (Ok tt,
       mkWorld (ui two_selected_world)
         (mkHost s' (activeSelection (host two_selected_world)))
         (log two_selected_world ++ [LogInfo "Finished creating ctrls"]))
    ∧ scene_wf s'
    ∧ size s'
      = size (scene (host two_selected_world))
        + 3 * length (dag_paths (activeSelection (host two_selected_world)))
    ∧ (∀ n, is_Some (scene (host two_selected_world) !! n) →
            s' !! n = scene (host two_selected_world) !! n)
    ∧ (∀ p, p ∈ dag_paths (activeSelection (host two_selected_world)) →
            controller_for (scene (host two_selected_world)) s' (1, 0, 0)%float p).
Proof.
  apply (create_blank_controller_selection (1, 0, 0)%float two_selected_world).
  - reflexivity.
  - reflexivity.
  - intros n nd p Hn Hp.
    revert Hn Hp. unfold two_selected_world. cbn [scene host].
    destruct (decide (n = "a")) as [-> | ?];
      [rewrite lookup_insert_eq; intros [= <-]; discriminate |].
    rewrite lookup_insert_ne by done.
    destruct (decide (n = "b")) as [-> | ?];
      [rewrite lookup_insert_eq; intros [= <-] [= <-];
       by rewrite lookup_insert_eq |].
    rewrite lookup_insert_ne by done. by rewrite lookup_empty.
  - intros p Hp.
    change (dag_paths (activeSelection (host two_selected_world)))
      with ["|a"; "|a|b"] in Hp.
    apply elem_of_cons in Hp as [-> | Hp].
    { change (split_last "|"%char "|a") with "a".
      unfold two_selected_world. cbn [scene host].
      rewrite lookup_insert_eq. by eexists. }
    apply elem_of_cons in Hp as [-> | Hp].
    { change (split_last "|"%char "|a|b") with "b".
      unfold two_selected_world. cbn [scene host].
      rewrite lookup_insert_ne by done. rewrite lookup_insert_eq. by eexists. }
    by apply elem_of_nil in Hp.
Defined.


(** ** The rig template over any scene *)

Lemma cmds_group_run (objects : list string) (empty world : bool)
    (name : string) (h : Host) :
  cmds_group objects empty world name h
  = (Ok (host_name (scene h) name),
     mkHost (foldr (λ c acc, alter (set_parent (Some (host_name (scene h) name))) c acc)
               (<[host_name (scene h) name
                  := new_node transform
                       (if world then None
                        else common_parent (scene h)
                               (if empty then [] else objects))]> (scene h))
               (if empty then [] else objects))
            [DagItem (host_name (scene h) name)]).
Proof. reflexivity. Qed.

Ltac named_group_step n H :=
  erewrite bind_ok; [| apply lift_host_ok, cmds_group_run];
  cbn [scene host ui log foldr];
  match goal with
  | |- context [host_name ?s ?b] =>
      pose proof (proj1 (objExists_false _ _) (host_name_fresh s b)) as H;
      set (n := host_name s b) in *; clearbody n
  end.

(** X11: whatever the scene holds, with a rig name that is not blank
    [create_rig_template] ends normally and adds exactly eight transforms,
    under eight different names that were all free (those the host
    returned for the eight groups), nested as the template prescribes with
    respect to those names: the root under the
    world, three groups under the root, two groups under the first of them
    and two under the second; the nodes that were in the scene are
    unchanged, the root group is the selection, and the dialog and the log
    are untouched. *)
Theorem create_rig_template_named (w : World) :
  strip (rig_temp_name_field (ui w)) ≠ "" →
  ∃ root geo jnt ctrl prx rnd anim exp : string,
    NoDup [root; geo; jnt; ctrl; prx; rnd; anim; exp]
    ∧ Forall (λ n, scene (host w) !! n = None)
        [root; geo; jnt; ctrl; prx; rnd; anim; exp]
    ∧ RiggingToolsUI.create_rig_template w
      = (Ok tt,
         mkWorld (ui w)
           (mkHost (rig_hierarchy (scene (host w))
                      root geo jnt ctrl prx rnd anim exp)
                   [DagItem root])
           (log w)).
Proof.
  intros Hne.
  unfold RiggingToolsUI.create_rig_template.
  erewrite bind_ok by reflexivity.
  rewrite (proj2 (String.eqb_neq _ _)) by done.
  named_group_step prx Hprx.
  named_group_step rnd Hrnd.
  named_group_step geo Hgeo.
  named_group_step anim Hanim.
  named_group_step exp Hexp.
  named_group_step jnt Hjnt.
  named_group_step ctrl Hctrl.
  named_group_step root Hroot.
  repeat match goal with
         | H : _ !! _ = None |- _ =>
             first [ rewrite lookup_alter_None in H
                   | apply lookup_insert_None in H; destruct H as [H ?] ]
         end.
  exists root, geo, jnt, ctrl, prx, rnd, anim, exp.
  refine (conj _ (conj _ _)).
  - repeat (apply NoDup_cons; split;
            [rewrite ?elem_of_cons, elem_of_nil; intuition congruence |]).
    apply NoDup_nil_2.
  - repeat (apply Forall_cons; split; [assumption |]). apply Forall_nil_2.
  - unfold common_parent. cbn [forallb]. map_lookups.
    cbn [fmap option_fmap option_map mbind option_bind parent new_node set_parent].
    rewrite !bool_decide_eq_true_2 by done. cbn [andb].
    unfold mret, ST_ret, st_ret. do 3 f_equal.
    apply map_eq. intros n. unfold rig_hierarchy.
    destruct (decide (n = root)) as [-> | ?]; [map_lookups; done |].
    destruct (decide (n = geo)) as [-> | ?]; [map_lookups; done |].
    destruct (decide (n = jnt)) as [-> | ?]; [map_lookups; done |].
    destruct (decide (n = ctrl)) as [-> | ?]; [map_lookups; done |].
    destruct (decide (n = prx)) as [-> | ?]; [map_lookups; done |].
    destruct (decide (n = rnd)) as [-> | ?]; [map_lookups; done |].
    destruct (decide (n = anim)) as [-> | ?]; [map_lookups; done |].
    destruct (decide (n = exp)) as [-> | ?]; [map_lookups; done |].
    map_lookups. done.
Qed.

Lemma create_rig_template_named_witness :
  ∃ root geo jnt ctrl prx rnd anim exp : string,
    NoDup [root; geo; jnt; ctrl; prx; rnd; anim; exp]
    ∧ Forall (λ n, scene (host (world_with_rig_name two_arms_host " arm_ctrl ")) !! n
                   = None)
        [root; geo; jnt; ctrl; prx; rnd; anim; exp]
    ∧ RiggingToolsUI.create_rig_template
        (world_with_rig_name two_arms_host " arm_ctrl ")
      = (Ok tt,
         mkWorld (ui (world_with_rig_name two_arms_host " arm_ctrl "))
           (mkHost (rig_hierarchy
                      (scene (host (world_with_rig_name two_arms_host " arm_ctrl ")))
                      root geo jnt ctrl prx rnd anim exp)
                   [DagItem root])
           (log (world_with_rig_name two_arms_host " arm_ctrl "))).
Proof.
  apply (create_rig_template_named
           (world_with_rig_name two_arms_host " arm_ctrl ")).
  vm_compute. discriminate.
Defined.


(** ** From the colour picker to the painted controller *)

(** X12: a colour accepted in the colour dialog is the colour of the next
    controller: after [get_picker_color] with a valid colour,
    [create_blank_controller] in custom-name mode, with a name that is not
    blank and over a well-formed scene, ends normally whatever colour was or
    was not stored before, and the shape of the new circle carries the three
    channels of the picked colour; the log gains the debug record of the
    stored colour and the final record. *)
Theorem picked_color_is_painted (picked : QColor) (w : World) :
  isValid picked = true →
  ctrl_custom_name_checkbox (ui w) = true →
  strip (ctrl_name_field (ui w)) ≠ "" →
  scene_wf (scene (host w)) →
  ∃ circle shape offset : string,
    scene (host w) !! circle = None
    ∧ scene (host w) !! shape = None
    ∧ scene (host w) !! offset = None
    ∧ circle ≠ shape ∧ circle ≠ offset ∧ shape ≠ offset
    ∧ (RiggingToolsUI.get_picker_color picked;;
       RiggingToolsUI.create_blank_controller) w
      = (Ok tt,
         mkWorld (mkDialog (Some (redF picked, greenF picked, blueF picked))
                    true
                    (ctrl_name_field (ui w))
                    (rig_temp_name_field (ui w))
                    ("background-color: " +:+ color_name picked))
           (mkHost (controller_scene (scene (host w)) circle shape offset
                      (redF picked, greenF picked, blueF picked) origin)
                   (activeSelection (host w)))
           (log w
            ++ [LogDebugStoredColor (redF picked, greenF picked, blueF picked);
                LogInfo "Finished creating ctrls"])).
Proof.
  intros Hvalid Hmode Hname Hwf.
  pose proof (get_picker_color_run picked w) as Hpick. rewrite Hvalid in Hpick.
  set (w1 := mkWorld _ _ _) in Hpick.
  destruct (create_blank_controller_custom_run
              (redF picked, greenF picked, blueF picked) w1)
    as (circle & shape & offset & _ & Fc & Fs & Fo & Dcs & Dco & Dso & Hrun);
    [exact Hmode | exact Hname | reflexivity | exact Hwf |].
  exists circle, shape, offset.
  refine (conj Fc (conj Fs (conj Fo (conj Dcs (conj Dco (conj Dso _)))))).
  erewrite bind_ok by exact Hpick. rewrite Hrun.
  cbn [ui host log scene activeSelection w1]. rewrite Hmode.
  by rewrite <- app_assoc.
Qed.

Lemma picked_color_is_painted_witness :
  ∃ circle shape offset : string,
    scene (host fresh_custom_world) !! circle = None
    ∧ scene (host fresh_custom_world) !! shape = None
    ∧ scene (host fresh_custom_world) !! offset = None
    ∧ circle ≠ shape ∧ circle ≠ offset ∧ shape ≠ offset
    ∧ (RiggingToolsUI.get_picker_color (QColor_of_name "blue");;
       RiggingToolsUI.create_blank_controller) fresh_custom_world
      = (Ok tt,
         mkWorld (mkDialog (Some (redF (QColor_of_name "blue"),
                                  greenF (QColor_of_name "blue"),
                                  blueF (QColor_of_name "blue")))
                    true
                    (ctrl_name_field (ui fresh_custom_world))
                    (rig_temp_name_field (ui fresh_custom_world))
                    ("background-color: " +:+ color_name (QColor_of_name "blue")))
           (mkHost (controller_scene (scene (host fresh_custom_world))
                      circle shape offset
                      (redF (QColor_of_name "blue"),
                       greenF (QColor_of_name "blue"),
                       blueF (QColor_of_name "blue")) origin)
                   (activeSelection (host fresh_custom_world)))
           (log fresh_custom_world
            ++ [LogDebugStoredColor (redF (QColor_of_name "blue"),
                                     greenF (QColor_of_name "blue"),
                                     blueF (QColor_of_name "blue"));
                LogInfo "Finished creating ctrls"])).
Proof.
  apply (picked_color_is_painted (QColor_of_name "blue") fresh_custom_world).
  - reflexivity.
  - reflexivity.
  - vm_compute. discriminate.
  - intros n nd p Hn. cbn [fresh_custom_world empty_host scene host] in Hn.
    by rewrite lookup_empty in Hn.
Defined.


(** ** The encoding read back *)

Ltac lia_div := zify; Z.to_euclidean_division_equations; lia.

Ltac decide_bounds :=
  repeat match goal with
         | |- context [N.leb ?a ?b] => destruct (N.leb_spec a b); try lia_div
         | |- context [N.ltb ?a ?b] => destruct (N.ltb_spec a b); try lia_div
         end.

Lemma utf8_cont_byte (n : N) :
  (n < 64)%N → utf8_cont (ascii_of_N (128 + n)) = Some n.
Proof.
  intros Hn. unfold utf8_cont. rewrite N_ascii_embedding by lia.
  decide_bounds. cbn [andb]. f_equal. lia.
Qed.

Lemma utf8_decode2_other (a b : ascii) :
  (N_of_ascii a < 194 ∨ 224 <= N_of_ascii a)%N → utf8_decode2 a b = None.
Proof. intros Ha. unfold utf8_decode2. by decide_bounds. Qed.

Lemma utf8_decode3_other (a b c : ascii) :
  (N_of_ascii a < 224 ∨ 240 <= N_of_ascii a)%N → utf8_decode3 a b c = None.
Proof. intros Ha. unfold utf8_decode3. by decide_bounds. Qed.

Lemma utf8_decode4_other (a b c d : ascii) :
  (N_of_ascii a < 240)%N → utf8_decode4 a b c d = None.
Proof. intros Ha. unfold utf8_decode4. by decide_bounds. Qed.

(** A single byte that starts no longer sequence is a character. *)
Lemma utf8_chars_single (a : ascii) (rest : string) :
  (N_of_ascii a < 194)%N →
  utf8_chars (String a rest)
  = (utf8_decode1 a, String a "") :: utf8_chars rest.
Proof.
  intros Ha. rewrite utf8_chars_eq.
  destruct rest as [| b [| c [| d r]]]; [done | ..];
    rewrite utf8_decode2_other by lia; [done | ..];
    rewrite utf8_decode3_other by lia; [done |].
  by rewrite utf8_decode4_other by lia.
Qed.

(** Reading back the encoding of a scalar value gives that value, with the
    bytes of its encoding, whatever follows. *)
Lemma utf8_chars_encode (c : N) (rest : string) :
  unicode_scalar c = true →
  utf8_chars (utf8_encode c +:+ rest) = (c, utf8_encode c) :: utf8_chars rest.
Proof.
  unfold unicode_scalar. intros Hc.
  assert (Hrange : ((c < 55296 ∨ 57344 <= c) ∧ c < 1114112)%N).
  { revert Hc. decide_bounds; cbn; intros; try done; lia. }
  clear Hc. destruct Hrange as [Hsur Hmax].
  unfold utf8_encode.
  destruct (N.ltb_spec c 128) as [H1 | H1].
  { rewrite !append_cons; change ("" +:+ rest) with rest. rewrite utf8_chars_single by (rewrite N_ascii_embedding; lia).
    unfold utf8_decode1. rewrite N_ascii_embedding by lia.
    by destruct (N.ltb_spec c 128); [| lia]. }
  destruct (N.ltb_spec c 2048) as [H2 | H2].
  { rewrite !append_cons; change ("" +:+ rest) with rest. rewrite utf8_chars_eq.
    assert (Hd : utf8_decode2 (ascii_of_N (192 + c / 64))
                   (ascii_of_N (128 + c mod 64)) = Some c).
    { unfold utf8_decode2. rewrite N_ascii_embedding by lia_div.
      rewrite utf8_cont_byte by lia_div. decide_bounds.
      cbn [andb mbind option_bind]. f_equal. lia_div. }
    by rewrite Hd. }
  destruct (N.ltb_spec c 65536) as [H3 | H3].
  { rewrite !append_cons; change ("" +:+ rest) with rest. rewrite utf8_chars_eq.
    rewrite utf8_decode2_other by (rewrite N_ascii_embedding; lia_div).
    assert (Hd : utf8_decode3 (ascii_of_N (224 + c / 4096))
                   (ascii_of_N (128 + (c / 64) mod 64))
                   (ascii_of_N (128 + c mod 64)) = Some c).
    { unfold utf8_decode3. rewrite N_ascii_embedding by lia_div.
      rewrite !utf8_cont_byte by lia_div.
      cbn [mbind option_bind].
      assert (Hcp : ((224 + c / 4096 - 224) * 4096 + (c / 64) mod 64 * 64
                     + c mod 64 = c)%N) by lia_div.
      rewrite Hcp. decide_bounds; cbn [andb negb]; done. }
    by rewrite Hd. }
  rewrite !append_cons; change ("" +:+ rest) with rest. rewrite utf8_chars_eq.
  rewrite utf8_decode2_other by (rewrite N_ascii_embedding; lia_div).
  rewrite utf8_decode3_other by (rewrite N_ascii_embedding; lia_div).
  assert (Hd : utf8_decode4 (ascii_of_N (240 + c / 262144))
                 (ascii_of_N (128 + (c / 4096) mod 64))
                 (ascii_of_N (128 + (c / 64) mod 64))
                 (ascii_of_N (128 + c mod 64)) = Some c).
  { unfold utf8_decode4. rewrite N_ascii_embedding by lia_div.
    rewrite !utf8_cont_byte by lia_div.
    cbn [mbind option_bind].
    assert (Hcp : ((240 + c / 262144 - 240) * 262144 + (c / 4096) mod 64 * 4096
                   + (c / 64) mod 64 * 64 + c mod 64 = c)%N) by lia_div.
    rewrite Hcp. decide_bounds; cbn [andb]; done. }
  by rewrite Hd.
Qed.

(** The characters of a text are its code points. *)
Lemma utf8_chars_text_of (cs : list N) :
  forallb unicode_scalar cs = true →
  map fst (utf8_chars (text_of cs)) = cs.
Proof.
  induction cs as [| c cs IH]; [done |].
  cbn [forallb]. intros [Hc Hcs]%andb_true_iff.
  cbn [text_of foldr]. fold (text_of cs).
  rewrite utf8_chars_encode by done. cbn [map fst]. by rewrite IH.
Qed.

Lemma forallb_map {A B} (f : B → bool) (g : A → B) (l : list A) :
  forallb f (map g l) = forallb (λ x, f (g x)) l.
Proof. induction l as [| x l IH]; [done |]. cbn [map forallb]. by rewrite IH. Qed.

(** A text is whitespace-only exactly when [isspace] holds of each of its
    code points. *)
Lemma whitespace_only_text_of (cs : list N) :
  forallb unicode_scalar cs = true →
  whitespace_only (text_of cs) = forallb py_isspace cs.
Proof.
  intros Hcs. unfold whitespace_only.
  rewrite <- (utf8_chars_text_of cs Hcs) at 2. by rewrite forallb_map.
Qed.
